(** * treelite frontend: the model builder of [python/treelite/frontend.py]

    A shallow embedding of the Python module: the objects the module
    creates ([ModelBuilder.Node], [ModelBuilder.Tree], [ModelBuilder]) live
    in a store and are named by references, so that the back-references a
    node keeps to its tree and the sharing of one tree between several
    positions of an ensemble are those of the program.  Every method is a
    computation over that store which either returns or raises.

    The native library [_LIB] is a collaborator of the module, not a part
    of it: it enters as an interface, the class [Native], a transition
    function over a native state of its own, and every theorem holds for
    every library.  Arguments reach the library as the module hands them
    to the marshalling helpers ([c_str], [c_array]), which belong to the
    same boundary.  Python 3 is the reference semantics of the builtins. *)

From Stdlib Require Import ZArith NArith List String Ascii Bool Lia.
From Stdlib Require Import Floats.SpecFloat.
From stdpp Require Import base numbers list.

Local Open Scope Z_scope.
Set Warnings "-register-all".

(** ** Python values *)

(** A Python 3 [str] is a sequence of code points. *)
Definition pystr := list N.

Definition py (s : string) : pystr := map N_of_ascii (list_ascii_of_string s).

(** References into the store. *)
Abbreviation loc := nat.

(** A Python [float] is an IEEE 754 binary64 number. *)
Definition pyfloat := spec_float.

Inductive PyVal :=
| VNone
| VBool (b : bool)
| VInt (z : Z)
| VFloat (f : pyfloat)
| VStr (s : pystr)
| VList (l : list PyVal)
| VNode (n : loc)      (* a ModelBuilder.Node object *)
| VTree (t : loc).     (* a ModelBuilder.Tree object *)

(** ** Exceptions *)

Inductive exn :=
| ValueError (msg : string)
| KeyError_duplicate (key : Z)
    (* KeyError('Nodes with duplicate keys are not allowed. If you meant to
       replace node {key}, delete it first and then add an empty node with
       the same key.') *)
| KeyError (key : Z)             (* dict.__getitem__ on a missing key *)
| TreeliteError (msg : string)
| TreeliteError_native           (* raised by _check_call, message of the library *)
| TypeError
| AttributeError
| IndexError                     (* list index out of range *)
| OverflowError
| NoSuchObject.
    (* not a Python exception: the answer of the model to a reference that
       names no object of the store; no run of the program reaches it *)

Definition msg_value_type : string := "Value must be of type ModelBuidler.Node".
Definition msg_nonempty : string := "Can only insert an empty node".
Definition msg_index_type : string := "index must be of int type".
Definition msg_index_bounds : string := "index out of bounds".
Definition msg_tree_type : string := "tree must be of type ModelBuilder.Tree".
Definition msg_wrong_location : string := "Somehow tree got inserted at wrong location".
Definition msg_ascii : string := "model_format parameter must be an ASCII string".
Definition msg_unknown_format : string :=
  "Unknown model_format: must be one of {lightgbm, xgboost, protobuf}".
Definition msg_leaf_type : string :=
  "leaf_value parameter should be either a single float or a list of floats".
Definition msg_never_root : string :=
  "This node has never been inserted into a tree; a node must be inserted before it can be a root".
Definition msg_never_leaf : string :=
  "This node has never been inserted into a tree; a node must be inserted before it can be a leaf node".
Definition msg_never_test : string :=
  "This node has never been inserted into a tree; a node must be inserted before it can be a test node".
Definition msg_unpack : string := "not enough values to unpack".
Definition msg_num_feature_type : string := "num_feature must be of int type".
Definition msg_num_feature_pos : string := "num_feature must be strictly positive".
Definition msg_num_output_group_type : string := "num_output_group must be of int type".
Definition msg_num_output_group_pos : string := "num_output_group must be strictly positive".


(** The two errors by which [Model.load] refuses a format. *)
Definition unsupported_format_error (e : exn) : Prop :=
  e = ValueError msg_ascii \/ e = ValueError msg_unknown_format.

(** ** ctypes conversions *)

(** [ctypes.c_int(z)]: no overflow check, the value wraps to 32 bits. *)
Definition c_int (z : Z) : Z := (z + 2 ^ 31) mod 2 ^ 32 - 2 ^ 31.
Definition c_uint (z : Z) : Z := z mod 2 ^ 32.
Definition c_size_t (n : nat) : Z := Z.of_nat n mod 2 ^ 64.

(** [ctypes.c_float(f)]: the double is narrowed to binary32. *)
Definition c_float (f : pyfloat) : spec_float :=
  match f with
  | S754_finite s m e => binary_round 24 128 s m e
  | _ => f
  end.

(** ** Python containers *)

(** A [dict] keeps its keys in insertion order. *)
Definition dict (V : Type) := list (Z * V).

Fixpoint dict_get {V} (k : Z) (d : dict V) : option V :=
  match d with
  | [] => None
  | (k', v) :: d' => if k =? k' then Some v else dict_get k d'
  end.

Definition dict_contains {V} (k : Z) (d : dict V) : bool :=
  match dict_get k d with Some _ => true | None => false end.

(** [d[k] = v]: an existing key keeps its place, a new one goes last. *)
Fixpoint dict_set {V} (k : Z) (v : V) (d : dict V) : dict V :=
  match d with
  | [] => [(k, v)]
  | (k', v') :: d' => if k =? k' then (k, v) :: d' else (k', v') :: dict_set k v d'
  end.

Fixpoint dict_del {V} (k : Z) (d : dict V) : dict V :=
  match d with
  | [] => []
  | (k', v') :: d' => if k =? k' then d' else (k', v') :: dict_del k d'
  end.

Definition dict_keys {V} (d : dict V) : list Z := map fst d.

(** Python's index normalisation for [l[i]] and [del l[i]]: a negative
    index counts from the end; [None] is IndexError. *)
Definition list_index (len : nat) (i : Z) : option nat :=
  let n := Z.of_nat len in
  let j := if i <? 0 then i + n else i in
  if (0 <=? j) && (j <? n) then Some (Z.to_nat j) else None.

(** [l.insert(i, x)]: the index is clamped to [0, len(l)]. *)
Definition list_insert_at {A} (i : Z) (x : A) (l : list A) : list A :=
  let n := Z.of_nat (length l) in
  let j := if i <? 0 then Z.max 0 (i + n) else Z.min i n in
  take (Z.to_nat j) l ++ x :: drop (Z.to_nat j) l.

(** [del l[i]] once the index is normalised. *)
Definition list_delete_at {A} (j : nat) (l : list A) : list A :=
  take j l ++ drop (S j) l.

(** ** The objects of the module *)

Record Node := mkNode {
  empty : bool;
  node_key : option Z;      (* attribute absent until the node enters a tree *)
  tree : option loc         (* attribute absent until the node enters a tree *)
}.

Record Tree := mkTree {
  handle : option Z;        (* a ctypes.c_void_p, or None *)
  nodes : dict loc;
  ensemble : option loc     (* attribute absent until the tree enters an ensemble *)
}.

Record ModelBuilder := mkModelBuilder {
  builder_handle : option Z;
  trees : list loc
}.

Record Model := mkModel { model_handle : option Z }.

(** ** Calls into the native library *)

Inductive NativeCall :=
| TreeliteCreateTreeBuilder
| TreeliteDeleteTreeBuilder (h : option Z)
| TreeliteTreeBuilderCreateNode (h : option Z) (key : Z)
| TreeliteTreeBuilderSetRootNode (h : option Z) (key : Z)
| TreeliteTreeBuilderSetLeafNode (h : option Z) (key : Z) (value : spec_float)
| TreeliteTreeBuilderSetLeafVectorNode (h : option Z) (key : Z)
    (values : list pyfloat) (len : Z)
| TreeliteTreeBuilderSetNumericalTestNode (h : option Z) (key : Z)
    (feature_id : Z) (opname : pystr) (threshold : spec_float)
    (default_left : Z) (left_child_key right_child_key : Z)
| TreeliteTreeBuilderSetCategoricalTestNode (h : option Z) (key : Z)
    (feature_id : Z) (left_categories : list Z) (len : Z)
    (default_left : Z) (left_child_key right_child_key : Z)
| TreeliteCreateModelBuilder (num_feature num_output_group random_forest : Z)
| TreeliteModelBuilderInsertTree (h th : option Z) (index : Z)
| TreeliteModelBuilderGetTree (h : option Z) (index : Z)
| TreeliteModelBuilderDeleteTree (h : option Z) (index : Z)
| TreeliteModelBuilderSetModelParam (h : option Z) (key : PyVal) (val : PyVal)
| TreeliteCompilerSetParam (h : option Z) (key : PyVal) (val : PyVal)
| TreeliteLoadLightGBMModel (filename : pystr)
| TreeliteLoadXGBoostModel (filename : pystr)
| TreeliteLoadProtobufModel (filename : pystr).

(** What a call gives back: the C return value and, for the calls that
    take a [ctypes.byref] argument, the pointer written through it. *)
Record NativeRet := mkRet { ret : Z; out : Z }.

(** ** The store, and computations over it *)

(** The native library is an interface: each call steps a native state of
    the library's own and answers.  Two builtins the module applies to
    caller-supplied values are part of the same interface, since what they
    compute is no concern of the module: [float] on a [str] ([None] is
    ValueError) and [str]. *)
Class Native := {
  NativeState : Type;
  _LIB : NativeCall -> NativeState -> NativeRet * NativeState;
  float_of_str : pystr -> option pyfloat;
  py_str : PyVal -> pystr
}.

Inductive Result (A : Type) :=
| Ok (a : A)
| Raise (e : exn).
Arguments Ok {A} a.
Arguments Raise {A} e.

Record World `{Native} := mkWorld {
  node_heap : list Node;
  tree_heap : list Tree;
  builder_heap : list ModelBuilder;
  native : NativeState;
  calls : list NativeCall       (* the calls made so far, oldest first *)
}.
Arguments mkWorld {_} _ _ _ _ _.

(** A computation runs on a store and returns or raises; what it did to
    the store before raising stays done. *)
Definition M `{Native} (A : Type) : Type := World -> Result A * World.

Definition pure `{Native} {A} (a : A) : M A := fun w => (Ok a, w).
Definition raise `{Native} {A} (e : exn) : M A := fun w => (Raise e, w).
Definition bind `{Native} {A B} (m : M A) (k : A -> M B) : M B :=
  fun w => match m w with
           | (Ok a, w') => k a w'
           | (Raise e, w') => (Raise e, w')
           end.

Notation "x <- m ;; k" := (bind m (fun x => k))
  (at level 100, m at next level, right associativity).
Notation "m ;; k" := (bind m (fun _ => k))
  (at level 100, right associativity).

Section Frontend.

Context `{Native}.

(** [try: body except E: handler], for one exception class. *)
Definition try_except {A} (body : M A) (is_E : exn -> bool) (handler : M A) : M A :=
  fun w => match body w with
           | (Raise e, w') => if is_E e then handler w' else (Raise e, w')
           | r => r
           end.

Definition is_AttributeError (e : exn) : bool :=
  match e with AttributeError => true | _ => false end.
Definition is_TypeError (e : exn) : bool :=
  match e with TypeError => true | _ => false end.

Fixpoint mapM {A B} (f : A -> M B) (l : list A) : M (list B) :=
  match l with
  | [] => pure []
  | x :: l' => y <- f x ;; ys <- mapM f l' ;; pure (y :: ys)
  end.

Fixpoint forM_ {A} (l : list A) (f : A -> M unit) : M unit :=
  match l with
  | [] => pure tt
  | x :: l' => f x ;; forM_ l' f
  end.

(** Reading, writing and allocating objects. *)
Definition get_node (n : loc) : M Node :=
  fun w => match node_heap w !! n with
           | Some o => (Ok o, w)
           | None => (Raise NoSuchObject, w)
           end.
Definition put_node (n : loc) (o : Node) : M unit :=
  fun w => (Ok tt, mkWorld (<[n := o]> (node_heap w)) (tree_heap w)
                           (builder_heap w) (native w) (calls w)).
Definition new_node (o : Node) : M loc :=
  fun w => (Ok (length (node_heap w)),
            mkWorld (node_heap w ++ [o]) (tree_heap w)
                    (builder_heap w) (native w) (calls w)).

Definition get_tree (t : loc) : M Tree :=
  fun w => match tree_heap w !! t with
           | Some o => (Ok o, w)
           | None => (Raise NoSuchObject, w)
           end.
Definition put_tree (t : loc) (o : Tree) : M unit :=
  fun w => (Ok tt, mkWorld (node_heap w) (<[t := o]> (tree_heap w))
                           (builder_heap w) (native w) (calls w)).
Definition new_tree (o : Tree) : M loc :=
  fun w => (Ok (length (tree_heap w)),
            mkWorld (node_heap w) (tree_heap w ++ [o])
                    (builder_heap w) (native w) (calls w)).

Definition get_builder (b : loc) : M ModelBuilder :=
  fun w => match builder_heap w !! b with
           | Some o => (Ok o, w)
           | None => (Raise NoSuchObject, w)
           end.
Definition put_builder (b : loc) (o : ModelBuilder) : M unit :=
  fun w => (Ok tt, mkWorld (node_heap w) (tree_heap w)
                           (<[b := o]> (builder_heap w)) (native w) (calls w)).
Definition new_builder (o : ModelBuilder) : M loc :=
  fun w => (Ok (length (builder_heap w)),
            mkWorld (node_heap w) (tree_heap w)
                    (builder_heap w ++ [o]) (native w) (calls w)).

(** Reading an attribute that may not have been set yet. *)
Definition attr {A} (a : option A) : M A :=
  match a with
  | Some x => pure x
  | None => raise AttributeError
  end.

(** One call into the library, logged. *)
Definition native_call (c : NativeCall) : M NativeRet :=
  fun w => let '(r, s) := _LIB c (native w) in
           (Ok r, mkWorld (node_heap w) (tree_heap w) (builder_heap w)
                          s (calls w ++ [c])).

(** Modelled from the spec: [_check_call] of [treelite.core], which is not
    in this file.  Section 7: every native call's outcome is checked
    immediately, a failure becomes an error that carries the library's
    message and propagates to the caller. *)
Definition _check_call (r : Z) : M unit :=
  if r =? 0 then pure tt else raise TreeliteError_native.

(** ** Builtins *)

(** [iter(v)], run to the end: the elements of an iterable, TypeError for
    the rest.  A [str] yields its characters as one-character strings; a
    Tree yields its keys ([Tree.__iter__]). *)
Definition py_iter (v : PyVal) : M (list PyVal) :=
  match v with
  | VStr s => pure (map (fun c => VStr [c]) s)
  | VList l => pure l
  | VTree t => T <- get_tree t ;; pure (map VInt (dict_keys (nodes T)))
  | _ => raise TypeError
  end.

Definition msg_float_str : string := "could not convert string to float".

(** [float(v)]: an int is rounded to the nearest double, ties to even, and
    is refused when it is beyond the doubles. *)
Definition py_float (v : PyVal) : M pyfloat :=
  match v with
  | VBool b => pure (binary_normalize 53 1024 (Z.b2z b) 0 false)
  | VInt z =>
      match binary_normalize 53 1024 z 0 false with
      | S754_infinity _ => raise OverflowError
      | f => pure f
      end
  | VFloat f => pure f
  | VStr s =>
      match float_of_str s with
      | Some f => pure f
      | None => raise (ValueError msg_float_str)
      end
  | _ => raise TypeError
  end.

(** [isinstance(v, int)], with the integer when it holds ([bool] is a
    subclass of [int]). *)
Definition as_int (v : PyVal) : option Z :=
  match v with
  | VInt z => Some z
  | VBool b => Some (Z.b2z b)
  | _ => None
  end.

(** ** ModelBuilder.Tree *)

(** [Tree.__init__] *)
Definition Tree_init : M loc :=
  r <- native_call TreeliteCreateTreeBuilder ;;
  _check_call (ret r) ;;
  new_tree (mkTree (Some (out r)) [] None).

(** [Tree.__len__] *)
Definition Tree_len (self : loc) : M nat :=
  T <- get_tree self ;; pure (length (nodes T)).

(** [key in tree]: the class has no [__contains__], so Python walks
    [Tree.__iter__], the keys of [self.nodes]. *)
Definition Tree_contains (self : loc) (key : Z) : M bool :=
  T <- get_tree self ;; pure (existsb (Z.eqb key) (dict_keys (nodes T))).

(** [Tree.__setitem__] *)
Definition Tree_setitem (self : loc) (key : Z) (value : PyVal) : M unit :=
  match value with
  | VNode n =>
      T <- get_tree self ;;
      if dict_contains key (nodes T) then raise (KeyError_duplicate key)
      else
        N <- get_node n ;;
        if negb (empty N) then raise (ValueError msg_nonempty)
        else
          r <- native_call (TreeliteTreeBuilderCreateNode (handle T) (c_int key)) ;;
          _check_call (ret r) ;;
          T <- get_tree self ;;
          put_tree self (mkTree (handle T) (dict_set key n (nodes T)) (ensemble T)) ;;
          N <- get_node n ;;
          put_node n (mkNode (empty N) (Some key) (tree N)) ;;
          N <- get_node n ;;
          put_node n (mkNode (empty N) (node_key N) (Some self))
  | _ => raise (ValueError msg_value_type)
  end.

(** [ModelBuilder.Node()] *)
Definition Node_init : M loc := new_node (mkNode true None None).

(** [Tree.__getitem__] *)
Definition Tree_getitem (self : loc) (key : Z) : M loc :=
  T <- get_tree self ;;
  (if negb (dict_contains key (nodes T))
   then n <- Node_init ;; Tree_setitem self key (VNode n)
   else pure tt) ;;
  T <- get_tree self ;;
  match dict_get key (nodes T) with
  | Some n => pure n
  | None => raise (KeyError key)
  end.

(** [Tree.__delitem__] *)
Definition Tree_delitem (self : loc) (key : Z) : M unit :=
  T <- get_tree self ;;
  if dict_contains key (nodes T)
  then put_tree self (mkTree (handle T) (dict_del key (nodes T)) (ensemble T))
  else raise (KeyError key).

(** ** ModelBuilder.Node *)

Definition set_empty_False (self : loc) : M unit :=
  N <- get_node self ;; put_node self (mkNode false (node_key N) (tree N)).

(** [Node.set_root] *)
Definition Node_set_root (self : loc) : M unit :=
  try_except
    (N <- get_node self ;;
     t <- attr (tree N) ;;
     T <- get_tree t ;;
     k <- attr (node_key N) ;;
     r <- native_call (TreeliteTreeBuilderSetRootNode (handle T) (c_int k)) ;;
     _check_call (ret r))
    is_AttributeError
    (raise (TreeliteError msg_never_root)).

(** The first half of [Node.set_leaf_node]: is the value list-like, and
    the conversion to a float or to a list of floats.  Only a TypeError of
    the conversion is turned into the error of the module. *)
Definition convert_leaf_value (leaf_value : PyVal)
  : M (pyfloat + list pyfloat) :=
  (* check if leaf_value is a list-like object *)
  is_list <- try_except (py_iter leaf_value ;; pure true)
                        is_TypeError (pure false) ;;
  try_except
    (if is_list : bool
     then l <- py_iter leaf_value ;;
          fs <- mapM py_float l ;; pure (inr fs)
     else f <- py_float leaf_value ;; pure (inl f))
    is_TypeError
    (raise (TreeliteError msg_leaf_type)).

(** [Node.set_leaf_node] *)
Definition Node_set_leaf_node (self : loc) (leaf_value : PyVal) : M unit :=
  leaf <- convert_leaf_value leaf_value ;;
  try_except
    (N <- get_node self ;;
     t <- attr (tree N) ;;
     T <- get_tree t ;;
     k <- attr (node_key N) ;;
     r <- match leaf with
          | inr fs =>
              native_call (TreeliteTreeBuilderSetLeafVectorNode
                             (handle T) (c_int k) fs (c_size_t (length fs)))
          | inl f =>
              native_call (TreeliteTreeBuilderSetLeafNode
                             (handle T) (c_int k) (c_float f))
          end ;;
     _check_call (ret r) ;;
     set_empty_False self)
    is_AttributeError
    (raise (TreeliteError msg_never_leaf)).

(** The children a test node names are created when they do not exist yet:
    [if child_key not in self.tree: self.tree[child_key] = ModelBuilder.Node()]. *)
Definition create_child (self : loc) (child_key : Z) : M unit :=
  N <- get_node self ;;
  t <- attr (tree N) ;;
  present <- Tree_contains t child_key ;;
  if negb present
  then n <- Node_init ;; Tree_setitem t child_key (VNode n)
  else pure tt.

(** The body the two test-node mutators share; they differ in the call
    they make, [test] here, which receives the handle of the tree and the
    key of the node. *)
Definition set_test_node (self : loc) (test : option Z -> Z -> NativeCall)
    (left_child_key right_child_key : Z) : M unit :=
  try_except
    ((* automatically create child nodes that don't exist yet *)
     create_child self left_child_key ;;
     create_child self right_child_key ;;
     N <- get_node self ;;
     t <- attr (tree N) ;;
     T <- get_tree t ;;
     k <- attr (node_key N) ;;
     r <- native_call (test (handle T) (c_int k)) ;;
     _check_call (ret r) ;;
     set_empty_False self)
    is_AttributeError
    (raise (TreeliteError msg_never_test)).

(** [Node.set_numerical_test_node] *)
Definition Node_set_numerical_test_node (self : loc) (feature_id : Z)
    (opname : pystr) (threshold : pyfloat) (default_left : bool)
    (left_child_key right_child_key : Z) : M unit :=
  set_test_node self
    (fun h k => TreeliteTreeBuilderSetNumericalTestNode
                  h k (c_uint feature_id) opname (c_float threshold)
                  (c_int (Z.b2z default_left))
                  (c_int left_child_key) (c_int right_child_key))
    left_child_key right_child_key.

(** [Node.set_categorical_test_node] *)
Definition Node_set_categorical_test_node (self : loc) (feature_id : Z)
    (left_categories : list Z) (default_left : bool)
    (left_child_key right_child_key : Z) : M unit :=
  set_test_node self
    (fun h k => TreeliteTreeBuilderSetCategoricalTestNode
                  h k (c_uint feature_id) left_categories
                  (c_size_t (length left_categories))
                  (c_int (Z.b2z default_left))
                  (c_int left_child_key) (c_int right_child_key))
    left_child_key right_child_key.

(** ** Parameters *)

(** The shapes [_set_param] and [_set_compiler_param] tell apart: a
    mapping, a string, and anything else, which the loop takes for a list
    of pairs. *)
Inductive Params :=
| PMapping (items : list (PyVal * PyVal))
| PString (key : pystr)
| PList (pairs : list (PyVal * PyVal)).

(** The first four lines that the two helpers share: what the [for] loop
    will run over.  A string without a value falls through to the loop,
    whose first character cannot be unpacked into a pair. *)
Definition param_items (params : Params) (value : option PyVal)
  : M (list (PyVal * PyVal)) :=
  match params, value with
  | PMapping items, _ => pure items
  | PString key, Some v => pure [(VStr key, v)]
  | PString [], None => pure []
  | PString (_ :: _), None => raise (ValueError msg_unpack)
  | PList pairs, _ => pure pairs
  end.

(** [ModelBuilder._set_param]: the value goes to [c_str] as it is. *)
Definition ModelBuilder_set_param (self : loc) (params : Params)
    (value : option PyVal) : M unit :=
  items <- param_items params value ;;
  forM_ items (fun kv =>
    B <- get_builder self ;;
    r <- native_call (TreeliteModelBuilderSetModelParam
                        (builder_handle B) (fst kv) (snd kv)) ;;
    _check_call (ret r)).

(** [Model._set_compiler_param]: the value goes through [str] first. *)
Definition Model_set_compiler_param (compiler_handle : option Z)
    (params : Params) (value : option PyVal) : M unit :=
  items <- param_items params value ;;
  forM_ items (fun kv =>
    r <- native_call (TreeliteCompilerSetParam
                        compiler_handle (fst kv) (VStr (py_str (snd kv)))) ;;
    _check_call (ret r)).

(** ** ModelBuilder *)

(** [ModelBuilder.__init__] *)
Definition ModelBuilder_init (num_feature num_output_group : PyVal)
    (random_forest : bool) (kwargs : list (PyVal * PyVal)) : M loc :=
  match as_int num_feature with
  | None => raise (ValueError msg_num_feature_type)
  | Some nf =>
      if nf <=? 0 then raise (ValueError msg_num_feature_pos)
      else
        match as_int num_output_group with
        | None => raise (ValueError msg_num_output_group_type)
        | Some nog =>
            if nog <=? 0 then raise (ValueError msg_num_output_group_pos)
            else
              r <- native_call (TreeliteCreateModelBuilder
                                  (c_int nf) (c_int nog)
                                  (c_int (Z.b2z random_forest))) ;;
              _check_call (ret r) ;;
              self <- new_builder (mkModelBuilder (Some (out r)) []) ;;
              ModelBuilder_set_param self (PMapping kwargs) None ;;
              pure self
        end
  end.

(** [ModelBuilder.__len__] *)
Definition ModelBuilder_len (self : loc) : M nat :=
  B <- get_builder self ;; pure (length (trees B)).

(** [ModelBuilder.__getitem__] *)
Definition ModelBuilder_getitem (self : loc) (index : Z) : M loc :=
  B <- get_builder self ;;
  match list_index (length (trees B)) index with
  | Some j => match trees B !! j with
              | Some t => pure t
              | None => raise IndexError
              end
  | None => raise IndexError
  end.

(** [ModelBuilder.insert] *)
Definition ModelBuilder_insert (self : loc) (tree : PyVal) (index : PyVal)
  : M unit :=
  match as_int index with
  | None => raise (ValueError msg_index_type)
  | Some i =>
      n <- ModelBuilder_len self ;;
      if (i <? 0) || (i >? Z.of_nat n) then raise (ValueError msg_index_bounds)
      else
        match tree with
        | VTree t =>
            B <- get_builder self ;;
            T <- get_tree t ;;
            r <- native_call (TreeliteModelBuilderInsertTree
                                (builder_handle B) (handle T) (c_int i)) ;;
            _check_call (if ret r =? i then 0 else -1) ;;
            (if negb (ret r =? i) then raise (ValueError msg_wrong_location)
             else pure tt) ;;
            (* delete the stale handle to the inserted tree and get a new one *)
            r <- native_call (TreeliteDeleteTreeBuilder (handle T)) ;;
            _check_call (ret r) ;;
            match handle T with
            | None => raise TypeError    (* ctypes.byref(None) *)
            | Some _ =>
                r <- native_call (TreeliteModelBuilderGetTree
                                    (builder_handle B) (c_int i)) ;;
                put_tree t (mkTree (Some (out r)) (nodes T) (ensemble T)) ;;
                _check_call (ret r)
            end ;;
            T <- get_tree t ;;
            put_tree t (mkTree (handle T) (nodes T) (Some self)) ;;
            B <- get_builder self ;;
            put_builder self
              (mkModelBuilder (builder_handle B) (list_insert_at i t (trees B)))
        | _ => raise (ValueError msg_tree_type)
        end
  end.

(** [ModelBuilder.append] *)
Definition ModelBuilder_append (self : loc) (tree : PyVal) : M unit :=
  n <- ModelBuilder_len self ;;
  ModelBuilder_insert self tree (VInt (Z.of_nat n)).

(** [ModelBuilder.__delitem__] *)
Definition ModelBuilder_delitem (self : loc) (index : Z) : M unit :=
  B <- get_builder self ;;
  r <- native_call (TreeliteModelBuilderDeleteTree
                      (builder_handle B) (c_int index)) ;;
  _check_call (ret r) ;;
  B <- get_builder self ;;
  match list_index (length (trees B)) index with
  | None => raise IndexError
  | Some j =>
      match trees B !! j with
      | None => raise IndexError
      | Some t =>
          T <- get_tree t ;;
          (* handle is already invalid *)
          put_tree t (mkTree None (nodes T) (ensemble T)) ;;
          B <- get_builder self ;;
          put_builder self
            (mkModelBuilder (builder_handle B) (list_delete_at j (trees B)))
      end
  end.

(** ** Model *)

(** The length of the UTF-8 encoding of a code point; a surrogate cannot
    be encoded (UnicodeEncodeError). *)
Definition utf8_len (c : N) : option nat :=
  if (c <? 128)%N then Some 1%nat
  else if (c <? 2048)%N then Some 2%nat
  else if (55296 <=? c)%N && (c <=? 57343)%N then None
  else if (c <? 65536)%N then Some 3%nat
  else Some 4%nat.

(** [len(string.encode())] *)
Fixpoint encode_len (s : pystr) : option nat :=
  match s with
  | [] => Some 0%nat
  | c :: s' =>
      match utf8_len c, encode_len s' with
      | Some a, Some b => Some (a + b)%nat
      | _, _ => None
      end
  end.

(** [_isascii] *)
Definition _isascii (s : pystr) : bool :=
  match encode_len s with
  | Some n => Nat.eqb (length s) n
  | None => false
  end.

(** [str.lower] on the strings [Model.load] gives it, which are ASCII:
    the upper-case Latin letters move to lower case.  (Other code points
    are left alone here; [load] never lowers a string that has one.) *)
Definition lower (s : pystr) : pystr :=
  map (fun c => if (65 <=? c)%N && (c <=? 90)%N then (c + 32)%N else c) s.

Definition str_eqb (a b : pystr) : bool := bool_decide (a = b).

(** [Model.load] *)
Definition Model_load (filename model_format : pystr) : M Model :=
  if negb (_isascii model_format) then raise (ValueError msg_ascii)
  else
    let model_format := lower model_format in
    if str_eqb model_format (py "lightgbm") then
      r <- native_call (TreeliteLoadLightGBMModel filename) ;;
      _check_call (ret r) ;;
      pure (mkModel (Some (out r)))
    else if str_eqb model_format (py "xgboost") then
      r <- native_call (TreeliteLoadXGBoostModel filename) ;;
      _check_call (ret r) ;;
      pure (mkModel (Some (out r)))
    else if str_eqb model_format (py "protobuf") then
      r <- native_call (TreeliteLoadProtobufModel filename) ;;
      _check_call (ret r) ;;
      pure (mkModel (Some (out r)))
    else raise (ValueError msg_unknown_format).

End Frontend.


(** ** Vocabulary of the specification *)

(** A string is pure ASCII when every code point is below 128. *)
Definition is_ascii (s : pystr) : Prop := Forall (fun c => (c < 128)%N) s.

(** The three formats [Model.load] knows. *)
Definition supported_format (s : pystr) : Prop :=
  s = py "xgboost" \/ s = py "lightgbm" \/ s = py "protobuf".

(** The importer of a supported format, on a file. *)
Definition importer (format filename : pystr) : NativeCall :=
  if str_eqb format (py "lightgbm") then TreeliteLoadLightGBMModel filename
  else if str_eqb format (py "xgboost") then TreeliteLoadXGBoostModel filename
  else TreeliteLoadProtobufModel filename.

(** What one step of child creation leaves behind, from store [w] with
    tree [T] at [t] to store [w1] with tree [T1]: the objects of the store
    are kept, the tree keeps its handle and every binding it had, no other
    key than [K] is touched, [K] is bound, and when it was not it is bound
    to a node the store did not have, empty, that records [K] and [t]. *)
Record child_step `{Native} (t : loc) (K : Z) (w w1 : World) (T T1 : Tree)
  : Prop := {
  cs_tree : tree_heap w1 !! t = Some T1;
  cs_handle : handle T1 = handle T;
  cs_keep : forall m o, node_heap w !! m = Some o -> node_heap w1 !! m = Some o;
  cs_old : forall K' m, dict_get K' (nodes T) = Some m ->
                        dict_get K' (nodes T1) = Some m;
  cs_other : forall K', K' <> K -> dict_get K' (nodes T1) = dict_get K' (nodes T);
  cs_in : dict_contains K (nodes T1) = true;
  cs_new : dict_contains K (nodes T) = false ->
           exists m, dict_get K (nodes T1) = Some m /\
                     node_heap w !! m = None /\
                     node_heap w1 !! m = Some (mkNode true (Some K) (Some t))
}.

(** ** Two libraries to run the module on *)

(** What a call answers when the library accepts it: [InsertTree] answers
    the position it inserted at, every other call answers 0. *)
Definition accepted (c : NativeCall) : Z :=
  match c with
  | TreeliteModelBuilderInsertTree _ _ index => index
  | _ => 0
  end.

(** The library accepts every call it is given. *)
Definition accepting `{Native} : Prop :=
  forall c s, ret (fst (_LIB c s)) = accepted c.

(** [float] on a string of ASCII digits, the only strings the examples
    convert: the digits are read in base ten and rounded as an int is. *)
Definition digits_value (s : pystr) : option Z :=
  fold_left (fun acc c =>
               match acc with
               | Some a => if (48 <=? c)%N && (c <=? 57)%N
                           then Some (10 * a + Z.of_N c - 48)
                           else None
               | None => None
               end) s (match s with [] => None | _ => Some 0 end).

Definition digits_float (s : pystr) : option pyfloat :=
  match digits_value s with
  | Some z => Some (binary_normalize 53 1024 z 0 false)
  | None => None
  end.

(** [str] on the values the examples give it. *)
Definition plain_str (v : PyVal) : pystr :=
  match v with
  | VStr s => s
  | VBool true => py "True"
  | VBool false => py "False"
  | VNone => py "None"
  | _ => []
  end.

(** A library that accepts every call; its state counts the calls, and the
    count serves as the next pointer it hands out. *)
Definition lenient : Native := {|
  NativeState := Z;
  _LIB := fun c s => (mkRet (accepted c) (s + 1), s + 1);
  float_of_str := digits_float;
  py_str := plain_str
|}.

(** A library that keeps count of the trees of the one ensemble it serves
    and checks positions against the count: it refuses an insertion
    outside [0, count] and a deletion outside [0, count). *)
Definition checking : Native := {|
  NativeState := Z;
  _LIB := fun c count =>
    match c with
    | TreeliteModelBuilderInsertTree _ _ index =>
        if (0 <=? index) && (index <=? count)
        then (mkRet index 0, count + 1) else (mkRet (-1) 0, count)
    | TreeliteModelBuilderDeleteTree _ index =>
        if (0 <=? index) && (index <? count)
        then (mkRet 0 0, count - 1) else (mkRet (-1) 0, count)
    | _ => (mkRet 0 1, count)
    end;
  float_of_str := digits_float;
  py_str := plain_str
|}.

(** The store before anything is built. *)
Definition world0 (N : Native) (s : @NativeState N) : @World N :=
  mkWorld [] [] [] s [].

(** The store after [t = Tree()], [t[7]], [n = Node()] under the lenient
    library: tree 0 holds node 0 at key 7, node 1 is in no tree. *)
Definition world1 : @World lenient :=
  snd ((Tree_init ;; Tree_getitem 0%nat 7 ;; Node_init) (world0 lenient 0)).

(** The store after [E = ModelBuilder(num_feature=4)], [t = Tree()] under
    the lenient library: ensemble 0 is empty, tree 0 is in no ensemble. *)
Definition world2 : @World lenient :=
  snd ((ModelBuilder_init (VInt 4) (VInt 1) false [] ;; Tree_init)
         (world0 lenient 0)).

(** The store after [E = ModelBuilder(num_feature=4)] under the checking
    library: ensemble 0 is empty, and the library knows it. *)
Definition world3 : @World checking :=
  snd (ModelBuilder_init (VInt 4) (VInt 1) false [] (world0 checking 0)).

(** The float 0.5. *)
Definition half : pyfloat := binary_normalize 53 1024 1 (-1) false.

(** ** The rest of the containers *)

Section Views.

Context `{Native}.

(** [Tree.keys], which is also what [Tree.__iter__] walks. *)
Definition Tree_keys (self : loc) : M (list Z) :=
  T <- get_tree self ;; pure (dict_keys (nodes T)).

(** [Tree.values] *)
Definition Tree_values (self : loc) : M (list loc) :=
  T <- get_tree self ;; pure (map snd (nodes T)).

(** [Tree.items] *)
Definition Tree_items (self : loc) : M (list (Z * loc)) :=
  T <- get_tree self ;; pure (nodes T).

(** [ModelBuilder.__iter__], run to the end. *)
Definition ModelBuilder_iter (self : loc) : M (list loc) :=
  B <- get_builder self ;; pure (trees B).

(** [ModelBuilder.__reversed__], run to the end. *)
Definition ModelBuilder_reversed (self : loc) : M (list loc) :=
  B <- get_builder self ;; pure (rev (trees B)).

End Views.





(** The store after [E.insert(t, 0)] on [world2]: ensemble 0 holds tree 0. *)
Definition world4 : @World lenient :=
  snd (@ModelBuilder_insert lenient 0%nat (VTree 0%nat) (VInt 0) world2).

(** The store after [E[0]] is removed again: tree 0 has lost its handle. *)
Definition world5 : @World lenient :=
  snd (@ModelBuilder_delitem lenient 0%nat 0 world4).

(** * Properties *)

Section Properties.

Context `{Native}.

(** ** Dictionaries and lists *)

Lemma dict_contains_keys {V} (k : Z) (d : dict V) :
  existsb (Z.eqb k) (dict_keys d) = dict_contains k d.
Proof.
  unfold dict_contains. induction d as [|[k' v] d IH]; simpl; [done|].
  destruct (k =? k'); simpl; done.
Qed.

Lemma dict_contains_get {V} (k : Z) (d : dict V) :
  dict_contains k d = true <-> exists v, dict_get k d = Some v.
Proof.
  unfold dict_contains. destruct (dict_get k d) as [v|]; split; eauto.
  - discriminate.
  - intros [v Hv]. discriminate.
Qed.

Lemma dict_set_absent {V} (k : Z) (v : V) (d : dict V) :
  dict_contains k d = false -> dict_set k v d = d ++ [(k, v)].
Proof.
  unfold dict_contains. induction d as [|[k' v'] d IH]; simpl; [done|].
  destruct (k =? k'); [done|]. intros Hd. by rewrite IH.
Qed.

Lemma dict_get_set_eq {V} (k : Z) (v : V) (d : dict V) :
  dict_get k (dict_set k v d) = Some v.
Proof.
  induction d as [|[k' v'] d IH]; simpl.
  - by rewrite Z.eqb_refl.
  - destruct (k =? k') eqn:E; simpl; rewrite ?Z.eqb_refl, ?E; done.
Qed.

(** ** Running computations *)

Lemma bind_ok {A B} (m : M A) (k : A -> M B) (w w' : World) (a : A) :
  m w = (Ok a, w') -> bind m k w = k a w'.
Proof. unfold bind. by intros ->. Qed.

Lemma bind_raise {A B} (m : M A) (k : A -> M B) (w w' : World) (e : exn) :
  m w = (Raise e, w') -> bind m k w = (Raise e, w').
Proof. unfold bind. by intros ->. Qed.

Lemma get_tree_ok (t : loc) (T : Tree) (w : World) :
  tree_heap w !! t = Some T -> get_tree t w = (Ok T, w).
Proof. unfold get_tree. by intros ->. Qed.

Lemma get_node_ok (n : loc) (N : Node) (w : World) :
  node_heap w !! n = Some N -> get_node n w = (Ok N, w).
Proof. unfold get_node. by intros ->. Qed.

Lemma get_builder_ok (b : loc) (B : ModelBuilder) (w : World) :
  builder_heap w !! b = Some B -> get_builder b w = (Ok B, w).
Proof. unfold get_builder. by intros ->. Qed.

(** ** Tree.__setitem__ *)

(** What [__setitem__] does with an empty node and a new key: one call to
    the library, and on its success the three assignments. *)
Lemma Tree_setitem_run (self : loc) (T : Tree) (key : Z) (n : loc) (N : Node)
    (w : World) :
  tree_heap w !! self = Some T ->
  dict_contains key (nodes T) = false ->
  node_heap w !! n = Some N ->
  empty N = true ->
  let c := TreeliteTreeBuilderCreateNode (handle T) (c_int key) in
  Tree_setitem self key (VNode n) w =
    if ret (fst (_LIB c (native w))) =? 0
    then (Ok tt,
          mkWorld (<[n := mkNode true (Some key) (Some self)]> (node_heap w))
                  (<[self := mkTree (handle T) (nodes T ++ [(key, n)]) (ensemble T)]>
                     (tree_heap w))
                  (builder_heap w) (snd (_LIB c (native w))) (calls w ++ [c]))
    else (Raise TreeliteError_native,
          mkWorld (node_heap w) (tree_heap w) (builder_heap w)
                  (snd (_LIB c (native w))) (calls w ++ [c])).
Proof.
  intros HT Hk HN He c.
  assert (Hn : (n < length (node_heap w))%nat) by (eapply lookup_lt_Some; eauto).
  assert (Hs : (self < length (tree_heap w))%nat) by (eapply lookup_lt_Some; eauto).
  unfold Tree_setitem, bind, get_tree, get_node, native_call, _check_call,
    put_tree, put_node; simpl.
  rewrite HT, Hk, HN, He; simpl. fold c.
  destruct (_LIB c (native w)) as [r s]; simpl.
  destruct (ret r =? 0); simpl; [|done].
  rewrite HT; simpl. rewrite HN; simpl.
  rewrite list_lookup_insert_eq by done. simpl.
  rewrite list_insert_insert_eq, He.
  by rewrite (dict_set_absent _ _ _ Hk).
Qed.

(** C10: a value that is not a Node is refused with the type error and the
    tree keeps its mapping; the test comes first, so the answer does not
    depend on whether the key is already in the tree. *)
Theorem C10_setitem_rejects_non_node (self : loc) (key : Z) (value : PyVal)
    (w : World) :
  (forall n, value <> VNode n) ->
  Tree_setitem self key value w = (Raise (ValueError msg_value_type), w).
Proof.
  intros Hv. destruct value; try reflexivity. by destruct (Hv n).
Qed.

(** C3: on a key the tree already has, [T.set(k, v)] fails with the
    duplicate-key error whatever the node, and nothing changes; on a new
    key a node that is not empty is refused with the non-empty-insertion
    error, and nothing changes; whenever the call succeeds the node has
    recorded the key and the tree, and the tree maps the key to the node;
    and it does succeed on a new key and an empty node when the library
    accepts the creation. *)
Theorem C3_setitem (self : loc) (T : Tree) (key : Z) (n : loc) (w : World) :
  tree_heap w !! self = Some T ->
  (dict_contains key (nodes T) = true ->
   Tree_setitem self key (VNode n) w = (Raise (KeyError_duplicate key), w))
  /\
  (forall N, dict_contains key (nodes T) = false ->
             node_heap w !! n = Some N -> empty N = false ->
   Tree_setitem self key (VNode n) w = (Raise (ValueError msg_nonempty), w))
  /\
  (forall w', Tree_setitem self key (VNode n) w = (Ok tt, w') ->
   exists N' T',
     node_heap w' !! n = Some N' /\ node_key N' = Some key /\
     tree N' = Some self /\
     tree_heap w' !! self = Some T' /\ dict_get key (nodes T') = Some n)
  /\
  (forall N, dict_contains key (nodes T) = false ->
             node_heap w !! n = Some N -> empty N = true ->
             ret (fst (_LIB (TreeliteTreeBuilderCreateNode (handle T) (c_int key))
                            (native w))) = 0 ->
   exists w', Tree_setitem self key (VNode n) w = (Ok tt, w')).
Proof.
  intros HT. repeat split.
  - intros Hk. unfold Tree_setitem, bind, get_tree. by rewrite HT, Hk.
  - intros N Hk HN He. unfold Tree_setitem, bind, get_tree, get_node.
    by rewrite HT, Hk, HN, He.
  - intros w' Hrun.
    destruct (dict_contains key (nodes T)) eqn:Hk.
    { unfold Tree_setitem, bind, get_tree in Hrun. by rewrite HT, Hk in Hrun. }
    destruct (node_heap w !! n) as [N|] eqn:HN.
    2:{ unfold Tree_setitem, bind, get_tree, get_node in Hrun.
        by rewrite HT, Hk, HN in Hrun. }
    destruct (empty N) eqn:He.
    2:{ unfold Tree_setitem, bind, get_tree, get_node in Hrun.
        by rewrite HT, Hk, HN, He in Hrun. }
    rewrite (Tree_setitem_run _ _ _ _ _ _ HT Hk HN He) in Hrun.
    destruct (ret _ =? 0); [|done]. injection Hrun as <-. simpl.
    eexists _, _. split; [apply list_lookup_insert_eq; by eapply lookup_lt_Some|].
    split; [done|]. split; [done|].
    split; [apply list_lookup_insert_eq; by eapply lookup_lt_Some|]. simpl.
    rewrite <- (dict_set_absent _ _ _ Hk). apply dict_get_set_eq.
  - intros N Hk HN He Hret.
    rewrite (Tree_setitem_run _ _ _ _ _ _ HT Hk HN He), Hret. simpl. eauto.
Qed.

(** C2: on a key the tree does not have, the lookup allocates a node that
    was not in the store, empty, stores it at the key and returns it;
    afterwards the key is in the tree and the tree has one node more.  On
    a key the tree has, the lookup returns the stored node and changes
    nothing.  The creation goes through the library: the first part is
    for a library that accepts it, and when the library refuses, the
    lookup fails with the library's error and the tree is as it was. *)
Theorem C2_getitem (self : loc) (T : Tree) (key : Z) (w : World) :
  tree_heap w !! self = Some T ->
  (dict_contains key (nodes T) = false ->
   ret (fst (_LIB (TreeliteTreeBuilderCreateNode (handle T) (c_int key))
                  (native w))) = 0 ->
   exists n w',
     Tree_getitem self key w = (Ok n, w') /\
     node_heap w !! n = None /\
     node_heap w' !! n = Some (mkNode true (Some key) (Some self)) /\
     Tree_contains self key w' = (Ok true, w') /\
     Tree_len self w = (Ok (length (nodes T)), w) /\
     Tree_len self w' = (Ok (S (length (nodes T))), w'))
  /\
  (forall n, dict_get key (nodes T) = Some n ->
   Tree_getitem self key w = (Ok n, w) /\
   Tree_len self w = (Ok (length (nodes T)), w))
  /\
  (dict_contains key (nodes T) = false ->
   ret (fst (_LIB (TreeliteTreeBuilderCreateNode (handle T) (c_int key))
                  (native w))) <> 0 ->
   exists w',
     Tree_getitem self key w = (Raise TreeliteError_native, w') /\
     tree_heap w' = tree_heap w).
Proof.
  intros HT.
  assert (Hs : (self < length (tree_heap w))%nat) by (eapply lookup_lt_Some; eauto).
  split; [|split].
  - intros Hk Hret.
    set (w1 := snd (Node_init w)).
    assert (HT1 : tree_heap w1 !! self = Some T) by done.
    assert (HN1 : node_heap w1 !! length (node_heap w) = Some (mkNode true None None)).
    { simpl. by rewrite lookup_app_r, Nat.sub_diag by lia. }
    pose proof (Tree_setitem_run _ _ _ _ _ _ HT1 Hk HN1 eq_refl) as Hset.
    cbn -[Tree_setitem] in Hset. rewrite Hret in Hset. cbn -[Tree_setitem] in Hset.
    assert (Hd : forall n : loc, dict_get key (nodes T ++ [(key, n)]) = Some n).
    { intros n. rewrite <- (dict_set_absent _ _ _ Hk). apply dict_get_set_eq. }
    eexists (length (node_heap w)), _. split.
    { unfold Tree_getitem.
      rewrite (bind_ok _ _ _ _ _ (get_tree_ok _ _ _ HT)). rewrite Hk. simpl negb.
      cbv iota.
      erewrite bind_ok; cycle 1.
      { erewrite bind_ok; [|reflexivity]. fold w1. apply Hset. }
      erewrite bind_ok; cycle 1.
      { apply get_tree_ok. simpl. by apply list_lookup_insert_eq. }
      cbn [nodes]. rewrite Hd. reflexivity. }
    split; [by apply lookup_ge_None_2|].
    split.
    { simpl. apply list_lookup_insert_eq. rewrite length_app. simpl. lia. }
    split.
    { unfold Tree_contains, bind, get_tree; simpl.
      rewrite list_lookup_insert_eq by done. simpl.
      rewrite dict_contains_keys. unfold dict_contains. by rewrite Hd. }
    split.
    { unfold Tree_len, bind, get_tree. by rewrite HT. }
    unfold Tree_len, bind, get_tree; simpl.
    rewrite list_lookup_insert_eq by done. simpl.
    rewrite length_app. simpl. by rewrite Nat.add_1_r.
  - intros n Hn. split.
    + unfold Tree_getitem, bind, get_tree. rewrite HT.
      unfold dict_contains. rewrite Hn. simpl. by rewrite HT, Hn.
    + unfold Tree_len, bind, get_tree. by rewrite HT.
  - intros Hk Hret. apply Z.eqb_neq in Hret.
    set (w1 := snd (Node_init w)).
    assert (HT1 : tree_heap w1 !! self = Some T) by done.
    assert (HN1 : node_heap w1 !! length (node_heap w) = Some (mkNode true None None)).
    { simpl. by rewrite lookup_app_r, Nat.sub_diag by lia. }
    pose proof (Tree_setitem_run _ _ _ _ _ _ HT1 Hk HN1 eq_refl) as Hset.
    cbn -[Tree_setitem] in Hset. rewrite Hret in Hset.
    eexists. split.
    + unfold Tree_getitem.
      rewrite (bind_ok _ _ _ _ _ (get_tree_ok _ _ _ HT)). rewrite Hk. simpl negb.
      cbv iota. apply bind_raise.
      erewrite bind_ok; [|reflexivity]. fold w1. apply Hset.
    + reflexivity.
Qed.

(** ** ModelBuilder.insert *)

Lemma list_insert_at_in_range {A} (i : Z) (x : A) (l : list A) :
  0 <= i <= Z.of_nat (length l) ->
  list_insert_at i x l = take (Z.to_nat i) l ++ x :: drop (Z.to_nat i) l.
Proof.
  intros Hi. unfold list_insert_at.
  destruct (i <? 0) eqn:E; [lia|]. by rewrite Z.min_l by lia.
Qed.

Lemma list_insert_at_shape {A} (i : Z) (x : A) (l : list A) :
  0 <= i <= Z.of_nat (length l) ->
  length (list_insert_at i x l) = S (length l) /\
  list_insert_at i x l !! Z.to_nat i = Some x /\
  (forall j, (j < Z.to_nat i)%nat -> list_insert_at i x l !! j = l !! j) /\
  (forall j, (Z.to_nat i <= j)%nat -> list_insert_at i x l !! S j = l !! j).
Proof.
  intros Hi. rewrite list_insert_at_in_range by done.
  assert (Hlen : length (take (Z.to_nat i) l) = Z.to_nat i)
    by (rewrite length_take; lia).
  repeat split.
  - rewrite length_app, Hlen. simpl. rewrite length_drop. lia.
  - rewrite lookup_app_r by lia. by rewrite Hlen, Nat.sub_diag.
  - intros j Hj. rewrite lookup_app_l by lia. by apply lookup_take_lt.
  - intros j Hj. rewrite lookup_app_r by lia. rewrite Hlen.
    replace (S j - Z.to_nat i)%nat with (S (j - Z.to_nat i)) by lia. simpl.
    rewrite lookup_drop. f_equal. lia.
Qed.

Lemma ModelBuilder_len_ok (self : loc) (B : ModelBuilder) (w : World) :
  builder_heap w !! self = Some B ->
  ModelBuilder_len self w = (Ok (length (trees B)), w).
Proof.
  intros HB. unfold ModelBuilder_len.
  by rewrite (bind_ok _ _ _ _ _ (get_builder_ok _ _ _ HB)).
Qed.

(** C1: on an ensemble of length n, [insert(t, i)] with i in [0, n] that
    returns has recorded [t] at position i: the sequence is one longer,
    the trees before position i are where they were and every tree that
    was at a position j >= i is at position j + 1; and the call does
    return when the library accepts its three calls (the tree still
    holding a handle, the position fitting a C int).  With i outside
    [0, n] the call fails with the index-out-of-range error for any tree
    argument, before anything is called, and the store is as it was. *)
Theorem C1_insert (self : loc) (B : ModelBuilder) (t : loc) (T : Tree)
    (i : Z) (w : World) :
  builder_heap w !! self = Some B ->
  tree_heap w !! t = Some T ->
  (0 <= i <= Z.of_nat (length (trees B)) ->
   (forall w', ModelBuilder_insert self (VTree t) (VInt i) w = (Ok tt, w') ->
    exists B',
      builder_heap w' !! self = Some B' /\
      length (trees B') = S (length (trees B)) /\
      trees B' !! Z.to_nat i = Some t /\
      (forall j, (j < Z.to_nat i)%nat -> trees B' !! j = trees B !! j) /\
      (forall j, (Z.to_nat i <= j)%nat -> trees B' !! S j = trees B !! j))
   /\
   (accepting -> handle T <> None -> c_int i = i ->
    exists w', ModelBuilder_insert self (VTree t) (VInt i) w = (Ok tt, w')))
  /\
  (i < 0 \/ Z.of_nat (length (trees B)) < i ->
   forall tree,
     ModelBuilder_insert self tree (VInt i) w
     = (Raise (ValueError msg_index_bounds), w)).
Proof.
  intros HB HT.
  assert (Hs : (self < length (builder_heap w))%nat) by (eapply lookup_lt_Some; eauto).
  assert (Ht : (t < length (tree_heap w))%nat) by (eapply lookup_lt_Some; eauto).
  split.
  - intros Hi.
    assert (Hrange : (i <? 0) || (i >? Z.of_nat (length (trees B))) = false).
    { apply orb_false_iff. split; [lia|]. rewrite Z.gtb_ltb. lia. }
    assert (Hrun : forall w',
      ModelBuilder_insert self (VTree t) (VInt i) w = (Ok tt, w') ->
      builder_heap w' !! self
      = Some (mkModelBuilder (builder_handle B) (list_insert_at i t (trees B)))).
    { intros w'. unfold ModelBuilder_insert. cbn [as_int].
      rewrite (bind_ok _ _ _ _ _ (ModelBuilder_len_ok _ _ _ HB)), Hrange.
      rewrite (bind_ok _ _ _ _ _ (get_builder_ok _ _ _ HB)).
      rewrite (bind_ok _ _ _ _ _ (get_tree_ok _ _ _ HT)).
      unfold bind, native_call, _check_call, put_tree, put_builder, get_tree,
        get_builder, raise, pure.
      destruct (_LIB _ (native w)) as [r1 s1]. cbn.
      destruct (ret r1 =? i); cbn; [|done].
      destruct (_LIB _ s1) as [r2 s2]. cbn.
      destruct (ret r2 =? 0); cbn; [|done].
      destruct (handle T) as [h|]; cbn; [|done].
      destruct (_LIB _ s2) as [r3 s3]. cbn.
      destruct (ret r3 =? 0); cbn; [|done].
      rewrite list_lookup_insert_eq by done. cbn.
      rewrite HB. cbn. intros [= <-]. cbn.
      by apply list_lookup_insert_eq. }
    split.
    + intros w' Hw'. eexists. split; [by apply Hrun|]. cbn [trees].
      by apply list_insert_at_shape.
    + intros Hacc Hh Hc. unfold ModelBuilder_insert. cbn [as_int].
      rewrite (bind_ok _ _ _ _ _ (ModelBuilder_len_ok _ _ _ HB)), Hrange.
      rewrite (bind_ok _ _ _ _ _ (get_builder_ok _ _ _ HB)).
      rewrite (bind_ok _ _ _ _ _ (get_tree_ok _ _ _ HT)).
      unfold bind, native_call, _check_call, put_tree, put_builder, get_tree,
        get_builder, raise, pure.
      pose proof (Hacc (TreeliteModelBuilderInsertTree (builder_handle B)
                          (handle T) (c_int i)) (native w)) as H1.
      destruct (_LIB _ (native w)) as [r1 s1]. cbn in H1 |- *.
      rewrite H1, Hc, Z.eqb_refl. cbn.
      pose proof (Hacc (TreeliteDeleteTreeBuilder (handle T)) s1) as H2.
      destruct (_LIB _ s1) as [r2 s2]. cbn in H2 |- *. rewrite H2. cbn.
      destruct (handle T) as [h|]; [|done]. cbn.
      pose proof (Hacc (TreeliteModelBuilderGetTree (builder_handle B) i) s2) as H3.
      destruct (_LIB _ s2) as [r3 s3]. cbn in H3 |- *. rewrite H3. cbn.
      rewrite list_lookup_insert_eq by done. cbn.
      rewrite HB. cbn. eauto.
  - intros Hi tree. unfold ModelBuilder_insert. cbn [as_int].
    rewrite (bind_ok _ _ _ _ _ (ModelBuilder_len_ok _ _ _ HB)).
    replace ((i <? 0) || (i >? Z.of_nat (length (trees B)))) with true; [done|].
    symmetry. apply orb_true_iff. rewrite Z.gtb_ltb. lia.
Qed.

(** ** ModelBuilder.__delitem__ *)

Lemma list_index_in_range (len : nat) (i : Z) :
  0 <= i < Z.of_nat len -> list_index len i = Some (Z.to_nat i).
Proof.
  intros Hi. unfold list_index.
  destruct (i <? 0) eqn:E; [lia|].
  replace ((0 <=? i) && (i <? Z.of_nat len)) with true; [done|].
  symmetry. apply andb_true_iff. lia.
Qed.

Lemma list_index_out_of_range (len : nat) (i : Z) :
  i < - Z.of_nat len \/ Z.of_nat len <= i -> list_index len i = None.
Proof.
  intros Hi. unfold list_index.
  destruct (i <? 0) eqn:E.
  - replace ((0 <=? i + Z.of_nat len) && (i + Z.of_nat len <? Z.of_nat len))
      with false; [done|].
    symmetry. apply andb_false_iff. lia.
  - replace ((0 <=? i) && (i <? Z.of_nat len)) with false; [done|].
    symmetry. apply andb_false_iff. lia.
Qed.

Lemma list_delete_at_shape {A} (j : nat) (l : list A) :
  (j < length l)%nat ->
  S (length (list_delete_at j l)) = length l /\
  (forall k, (k < j)%nat -> list_delete_at j l !! k = l !! k) /\
  (forall k, (j <= k)%nat -> list_delete_at j l !! k = l !! S k).
Proof.
  intros Hj. unfold list_delete_at.
  assert (Hlen : length (take j l) = j) by (rewrite length_take; lia).
  repeat split.
  - rewrite length_app, Hlen, length_drop. lia.
  - intros k Hk. rewrite lookup_app_l by lia. by apply lookup_take_lt.
  - intros k Hk. rewrite lookup_app_r by lia. rewrite Hlen, lookup_drop.
    f_equal. lia.
Qed.

(** C8, as the code has it: [remove(index)] hands the index to the library
    before it looks at its own sequence.  When the library refuses, the
    call fails with the library's error and the sequence is as before.
    When the library accepts, an index outside [-n, n) fails with the
    index-out-of-range error of the list, the sequence as before, and an
    index in [0, n) removes the entry at that position: the entries before
    it stay, the entries after it move one position earlier, and the
    length goes down by one. *)
Theorem C8_delitem (self : loc) (B : ModelBuilder) (index : Z) (w : World) :
  builder_heap w !! self = Some B ->
  (forall j t, trees B !! j = Some t -> is_Some (tree_heap w !! t)) ->
  let c := TreeliteModelBuilderDeleteTree (builder_handle B) (c_int index) in
  let n := Z.of_nat (length (trees B)) in
  (ret (fst (_LIB c (native w))) <> 0 ->
   exists w',
     ModelBuilder_delitem self index w = (Raise TreeliteError_native, w') /\
     builder_heap w' = builder_heap w)
  /\
  (ret (fst (_LIB c (native w))) = 0 -> index < - n \/ n <= index ->
   exists w',
     ModelBuilder_delitem self index w = (Raise IndexError, w') /\
     builder_heap w' = builder_heap w)
  /\
  (ret (fst (_LIB c (native w))) = 0 -> 0 <= index < n ->
   exists w' B',
     ModelBuilder_delitem self index w = (Ok tt, w') /\
     builder_heap w' !! self = Some B' /\
     S (length (trees B')) = length (trees B) /\
     (forall j, (j < Z.to_nat index)%nat -> trees B' !! j = trees B !! j) /\
     (forall j, (Z.to_nat index <= j)%nat -> trees B' !! j = trees B !! S j)).
Proof.
  intros HB Htrees c n.
  assert (Hs : (self < length (builder_heap w))%nat) by (eapply lookup_lt_Some; eauto).
  unfold ModelBuilder_delitem.
  rewrite (bind_ok _ _ _ _ _ (get_builder_ok _ _ _ HB)). fold c.
  unfold bind, native_call, _check_call, get_builder, get_tree, put_tree,
    put_builder, raise, pure.
  destruct (_LIB c (native w)) as [r s]. cbn.
  repeat split.
  - intros Hr. apply Z.eqb_neq in Hr. rewrite Hr. cbn. eauto.
  - intros Hr Hi. rewrite Hr. cbn. rewrite HB.
    rewrite (list_index_out_of_range _ _ Hi). eauto.
  - intros Hr Hi. rewrite Hr. cbn. rewrite HB.
    rewrite (list_index_in_range _ _ Hi).
    assert (Hj : (Z.to_nat index < length (trees B))%nat) by lia.
    destruct (lookup_lt_is_Some_2 _ _ Hj) as [t Ht]. rewrite Ht.
    destruct (Htrees _ _ Ht) as [T HT]. cbn. rewrite HT. cbn. rewrite HB.
    eexists _, _. split; [reflexivity|]. cbn.
    split; [by apply list_lookup_insert_eq|]. cbn [trees].
    by apply list_delete_at_shape.
Qed.

(** ** Model.load *)

Lemma utf8_len_ge (c : N) (a : nat) :
  utf8_len c = Some a -> (1 <= a)%nat /\ (a = 1%nat <-> (c < 128)%N).
Proof.
  unfold utf8_len. destruct (c <? 128)%N eqn:E.
  - apply N.ltb_lt in E. intros [= <-]. split; [lia|]. split; [done|lia].
  - apply N.ltb_ge in E.
    repeat case_match; intros [= <-]; (split; [lia|]); split; lia.
Qed.

Lemma encode_len_ge (s : pystr) (n : nat) :
  encode_len s = Some n ->
  (length s <= n)%nat /\ (n = length s <-> is_ascii s).
Proof.
  unfold is_ascii. revert n. induction s as [|c s IH]; intros n; simpl.
  - intros [= <-]. split; [lia|]. split; [constructor|done].
  - destruct (utf8_len c) as [a|] eqn:Ea; [|done].
    destruct (encode_len s) as [b|] eqn:Eb; [|done].
    intros [= <-]. destruct (utf8_len_ge _ _ Ea) as [Ha1 Ha2].
    destruct (IH _ eq_refl) as [Hb1 Hb2]. split; [lia|]. split.
    + intros Hab. constructor; [apply Ha2; lia|apply Hb2; lia].
    + intros Hall. inversion Hall as [|? ? Hc Hs]; subst.
      apply Ha2 in Hc. apply Hb2 in Hs. lia.
Qed.

Lemma encode_len_ascii (s : pystr) :
  is_ascii s -> encode_len s = Some (length s).
Proof.
  unfold is_ascii. induction 1 as [|c s Hc Hs IH]; simpl; [done|].
  unfold utf8_len. apply N.ltb_lt in Hc. by rewrite Hc, IH.
Qed.

(** [_isascii] answers whether the string is pure ASCII. *)
Lemma _isascii_spec (s : pystr) : _isascii s = true <-> is_ascii s.
Proof.
  unfold _isascii. split.
  - destruct (encode_len s) as [n|] eqn:E; [|done].
    intros Hn. apply Nat.eqb_eq in Hn. by apply (encode_len_ge _ _ E).
  - intros Hs. rewrite (encode_len_ascii _ Hs). apply Nat.eqb_refl.
Qed.

Lemma str_eqb_eq (a b : pystr) : str_eqb a b = true <-> a = b.
Proof. unfold str_eqb. apply bool_decide_eq_true. Qed.

(** C9: a pure-ASCII format whose lower-case form is one of the three is
    accepted, in any case of its letters: [load] makes one call, to the
    importer of that format on the file, and returns the model the call
    produced (or the library's error).  Any other format, not pure ASCII
    or not one of the three once lowered, is refused with the
    unsupported-format error and the store, the native state and the log
    of calls are as they were: nothing was called. *)
Theorem C9_load (filename model_format : pystr) (w : World) :
  (is_ascii model_format -> supported_format (lower model_format) ->
   let c := importer (lower model_format) filename in
   let r := fst (_LIB c (native w)) in
   Model_load filename model_format w =
     (if ret r =? 0 then Ok (mkModel (Some (out r)))
      else Raise TreeliteError_native,
      mkWorld (node_heap w) (tree_heap w) (builder_heap w)
              (snd (_LIB c (native w))) (calls w ++ [c])))
  /\
  (~ is_ascii model_format \/ ~ supported_format (lower model_format) ->
   exists e, unsupported_format_error e /\
             Model_load filename model_format w = (Raise e, w)).
Proof.
  unfold Model_load, importer, supported_format, unsupported_format_error.
  destruct (_isascii model_format) eqn:Ea; cbn [negb].
  - apply _isascii_spec in Ea. split.
    + intros _ Hsup.
      destruct (str_eqb (lower model_format) (py "lightgbm")) eqn:E1;
        [|destruct (str_eqb (lower model_format) (py "xgboost")) eqn:E2;
          [|destruct (str_eqb (lower model_format) (py "protobuf")) eqn:E3]].
      4:{ exfalso. destruct Hsup as [Hs|[Hs|Hs]];
          apply str_eqb_eq in Hs; congruence. }
      all: unfold bind, native_call, _check_call, pure, raise;
        destruct (_LIB _ (native w)) as [r s]; cbn;
        by destruct (ret r =? 0).
    + intros [Hn|Hn]; [done|].
      destruct (str_eqb (lower model_format) (py "lightgbm")) eqn:E1;
        [apply str_eqb_eq in E1; tauto|].
      destruct (str_eqb (lower model_format) (py "xgboost")) eqn:E2;
        [apply str_eqb_eq in E2; tauto|].
      destruct (str_eqb (lower model_format) (py "protobuf")) eqn:E3;
        [apply str_eqb_eq in E3; tauto|].
      eauto.
  - split.
    + intros Hs. apply _isascii_spec in Hs. congruence.
    + intros _. eauto.
Qed.

(** ** Node mutators *)

Lemma dict_get_app_old {V} (k k' : Z) (v v' : V) (d : dict V) :
  dict_get k' d = Some v' -> dict_get k' (d ++ [(k, v)]) = Some v'.
Proof.
  induction d as [|[k0 v0] d IH]; simpl; [done|].
  destruct (k' =? k0); [done|]. apply IH.
Qed.

Lemma dict_get_app_other {V} (k k' : Z) (v : V) (d : dict V) :
  k' <> k -> dict_get k' (d ++ [(k, v)]) = dict_get k' d.
Proof.
  intros Hne. induction d as [|[k0 v0] d IH]; simpl.
  - destruct (k' =? k) eqn:E; [apply Z.eqb_eq in E; congruence|done].
  - destruct (k' =? k0); [done|]. apply IH.
Qed.

Lemma dict_get_app_new {V} (k : Z) (v : V) (d : dict V) :
  dict_contains k d = false -> dict_get k (d ++ [(k, v)]) = Some v.
Proof.
  intros Hk. rewrite <- (dict_set_absent _ _ _ Hk). apply dict_get_set_eq.
Qed.

Lemma Tree_contains_ok (t : loc) (T : Tree) (key : Z) (w : World) :
  tree_heap w !! t = Some T ->
  Tree_contains t key w = (Ok (dict_contains key (nodes T)), w).
Proof.
  intros HT. unfold Tree_contains.
  rewrite (bind_ok _ _ _ _ _ (get_tree_ok _ _ _ HT)).
  by rewrite dict_contains_keys.
Qed.

(** One step of child creation on a node that is in a tree: it succeeds
    and leaves a [child_step], or the library refused the creation. *)
Lemma create_child_spec (n : loc) (N : Node) (t : loc) (T : Tree) (K : Z)
    (w : World) :
  node_heap w !! n = Some N -> tree N = Some t -> tree_heap w !! t = Some T ->
  (exists w1 T1, create_child n K w = (Ok tt, w1) /\ child_step t K w w1 T T1)
  \/
  (exists w1, create_child n K w = (Raise TreeliteError_native, w1) /\
              ret (fst (_LIB (TreeliteTreeBuilderCreateNode (handle T) (c_int K))
                             (native w))) <> 0).
Proof.
  intros HN Ht HT.
  assert (Hlt : (t < length (tree_heap w))%nat) by (eapply lookup_lt_Some; eauto).
  unfold create_child.
  rewrite (bind_ok _ _ _ _ _ (get_node_ok _ _ _ HN)), Ht. cbn [attr].
  erewrite bind_ok; [|reflexivity].
  rewrite (bind_ok _ _ _ _ _ (Tree_contains_ok _ _ _ _ HT)).
  destruct (dict_contains K (nodes T)) eqn:HK; cbn [negb].
  - left. exists w, T. split; [done|].
    split; try done. intros; congruence.
  - erewrite bind_ok; [|reflexivity].
    match goal with |- context [Tree_setitem _ _ _ ?x] => set (w0 := x) end.
    assert (HT0 : tree_heap w0 !! t = Some T) by done.
    assert (HN0 : node_heap w0 !! length (node_heap w)
                  = Some (mkNode true None None)).
    { cbn. by rewrite lookup_app_r, Nat.sub_diag by lia. }
    rewrite (Tree_setitem_run _ _ _ _ _ _ HT0 HK HN0 eq_refl).
    subst w0. cbn [native node_heap tree_heap builder_heap calls].
    destruct (ret _ =? 0) eqn:Hr.
    + left.
      eexists _, (mkTree (handle T) (nodes T ++ [(K, length (node_heap w))])
                         (ensemble T)).
      split; [reflexivity|].
      split; cbn [nodes handle node_heap tree_heap].
      * by apply list_lookup_insert_eq.
      * done.
      * intros m o Hm. rewrite list_lookup_insert_ne.
        -- by apply lookup_app_l_Some.
        -- apply lookup_lt_Some in Hm. lia.
      * intros K' m. apply dict_get_app_old.
      * intros K' HK'. by apply dict_get_app_other.
      * unfold dict_contains. by rewrite dict_get_app_new.
      * intros _. eexists. split; [by apply dict_get_app_new|].
        split; [by apply lookup_ge_None_2|].
        apply list_lookup_insert_eq. rewrite length_app. simpl. lia.
    + right. eexists. split; [reflexivity|]. by apply Z.eqb_neq.
Qed.

Lemma try_except_ok {A} (body handler : M A) (is_E : exn -> bool)
    (w w' : World) (a : A) :
  body w = (Ok a, w') -> try_except body is_E handler w = (Ok a, w').
Proof. unfold try_except. by intros ->. Qed.

Lemma try_except_pass {A} (body handler : M A) (is_E : exn -> bool)
    (w w' : World) (e : exn) :
  body w = (Raise e, w') -> is_E e = false ->
  try_except body is_E handler w = (Raise e, w').
Proof. unfold try_except. by intros -> ->. Qed.

Lemma try_except_caught {A} (body handler : M A) (is_E : exn -> bool)
    (w w' : World) (e : exn) :
  body w = (Raise e, w') -> is_E e = true ->
  try_except body is_E handler w = handler w'.
Proof. unfold try_except. by intros -> ->. Qed.

(** A test-node mutator on a node that is in a tree: both children are
    created in turn, then the library is called and, when it accepts, the
    node stops being empty.  Otherwise the library has refused a call. *)
Lemma set_test_node_cases (n : loc) (N : Node) (t : loc) (T : Tree) (k : Z)
    (test : option Z -> Z -> NativeCall) (L R : Z) (w : World) :
  node_heap w !! n = Some N -> tree N = Some t -> node_key N = Some k ->
  tree_heap w !! t = Some T ->
  (exists w1 T1 w2 T2,
     child_step t L w w1 T T1 /\ child_step t R w1 w2 T1 T2 /\
     let c := test (handle T2) (c_int k) in
     set_test_node n test L R w =
       if ret (fst (_LIB c (native w2))) =? 0
       then (Ok tt,
             mkWorld (<[n := mkNode false (Some k) (Some t)]> (node_heap w2))
                     (tree_heap w2) (builder_heap w2)
                     (snd (_LIB c (native w2))) (calls w2 ++ [c]))
       else (Raise TreeliteError_native,
             mkWorld (node_heap w2) (tree_heap w2) (builder_heap w2)
                     (snd (_LIB c (native w2))) (calls w2 ++ [c])))
  \/
  (exists w1, set_test_node n test L R w = (Raise TreeliteError_native, w1) /\
              ~ accepting).
Proof.
  intros HN Ht Hk HT. unfold set_test_node.
  destruct (create_child_spec n N t T L w HN Ht HT)
    as [(w1 & T1 & Hrun1 & Hstep1)|(w1 & Hrun1 & Hr1)].
  2:{ right. exists w1. split.
      - eapply try_except_pass; [|done]. by apply bind_raise.
      - intros Hacc. apply Hr1. by rewrite Hacc. }
  pose proof (cs_keep _ _ _ _ _ _ Hstep1 _ _ HN) as HN1.
  pose proof (cs_tree _ _ _ _ _ _ Hstep1) as HT1.
  destruct (create_child_spec n N t T1 R w1 HN1 Ht HT1)
    as [(w2 & T2 & Hrun2 & Hstep2)|(w2 & Hrun2 & Hr2)].
  2:{ right. exists w2. split.
      - eapply try_except_pass; [|done].
        rewrite (bind_ok _ _ _ _ _ Hrun1). by apply bind_raise.
      - intros Hacc. apply Hr2. by rewrite Hacc. }
  pose proof (cs_keep _ _ _ _ _ _ Hstep2 _ _ HN1) as HN2.
  pose proof (cs_tree _ _ _ _ _ _ Hstep2) as HT2.
  left. exists w1, T1, w2, T2. split; [done|]. split; [done|].
  set (c := test (handle T2) (c_int k)).
  assert (Hbody :
    (create_child n L;; create_child n R;;
     N0 <- get_node n;; t0 <- attr (tree N0);; T0 <- get_tree t0;;
     k0 <- attr (node_key N0);;
     r <- native_call (test (handle T0) (c_int k0));;
     _check_call (ret r);; set_empty_False n) w
    = if ret (fst (_LIB c (native w2))) =? 0
      then (Ok tt,
            mkWorld (<[n := mkNode false (Some k) (Some t)]> (node_heap w2))
                    (tree_heap w2) (builder_heap w2)
                    (snd (_LIB c (native w2))) (calls w2 ++ [c]))
      else (Raise TreeliteError_native,
            mkWorld (node_heap w2) (tree_heap w2) (builder_heap w2)
                    (snd (_LIB c (native w2))) (calls w2 ++ [c]))).
  { rewrite (bind_ok _ _ _ _ _ Hrun1), (bind_ok _ _ _ _ _ Hrun2).
    rewrite (bind_ok _ _ _ _ _ (get_node_ok _ _ _ HN2)), Ht, Hk. cbn [attr].
    erewrite bind_ok; [|reflexivity].
    rewrite (bind_ok _ _ _ _ _ (get_tree_ok _ _ _ HT2)).
    erewrite bind_ok; [|reflexivity]. fold c.
    unfold bind, native_call, _check_call, set_empty_False, get_node, put_node,
      pure, raise.
    destruct (_LIB c (native w2)) as [r s]. cbn.
    destruct (ret r =? 0); cbn; [|done].
    unfold bind. cbv beta. cbn [node_heap tree_heap builder_heap native calls].
    by rewrite HN2, Ht, Hk. }
  destruct (ret (fst (_LIB c (native w2))) =? 0).
  - by apply try_except_ok.
  - by apply try_except_pass.
Qed.

(** What a test-node mutator that returned has done for its two children. *)
Lemma set_test_node_children (n : loc) (N : Node) (t : loc) (T : Tree) (k : Z)
    (test : option Z -> Z -> NativeCall) (L R : Z) (w w' : World) :
  node_heap w !! n = Some N -> tree N = Some t -> node_key N = Some k ->
  tree_heap w !! t = Some T ->
  set_test_node n test L R w = (Ok tt, w') ->
  exists T',
    tree_heap w' !! t = Some T' /\
    forall K, K = L \/ K = R ->
      dict_contains K (nodes T') = true /\
      (forall m, dict_get K (nodes T) = Some m -> dict_get K (nodes T') = Some m) /\
      (dict_contains K (nodes T) = false ->
       exists m, dict_get K (nodes T') = Some m /\
                 node_heap w !! m = None /\
                 node_heap w' !! m = Some (mkNode true (Some K) (Some t))).
Proof.
  intros HN Ht Hk HT Hrun.
  destruct (set_test_node_cases n N t T k test L R w HN Ht Hk HT)
    as [(w1 & T1 & w2 & T2 & S1 & S2 & Heq)|(w1 & Heq & _)];
    [|congruence].
  cbv zeta in Heq. rewrite Heq in Hrun.
  destruct (ret _ =? 0); [|done]. injection Hrun as <-.
  exists T2. cbn [tree_heap node_heap]. split; [apply S2|].
  assert (Hfresh : forall m o, node_heap w !! m = None ->
                               node_heap w2 !! m = Some o ->
                               <[n := mkNode false (Some k) (Some t)]> (node_heap w2) !! m
                               = Some o).
  { intros m o Hm Hm2. rewrite list_lookup_insert_ne; [done|]. congruence. }
  assert (HL : dict_contains L (nodes T) = false ->
    exists m, dict_get L (nodes T2) = Some m /\
              node_heap w !! m = None /\
              <[n := mkNode false (Some k) (Some t)]> (node_heap w2) !! m
              = Some (mkNode true (Some L) (Some t))).
  { intros Habs. destruct (cs_new _ _ _ _ _ _ S1 Habs) as (m & Hm & Hw & Hw1).
    exists m. split; [by apply (cs_old _ _ _ _ _ _ S2)|]. split; [done|].
    apply Hfresh; [done|]. by apply (cs_keep _ _ _ _ _ _ S2). }
  intros K [->| ->]; repeat split.
  - pose proof (cs_in _ _ _ _ _ _ S1) as Hin.
    apply dict_contains_get in Hin as [m Hm].
    apply dict_contains_get. exists m. by apply (cs_old _ _ _ _ _ _ S2).
  - intros m Hm. apply (cs_old _ _ _ _ _ _ S2), (cs_old _ _ _ _ _ _ S1), Hm.
  - done.
  - apply (cs_in _ _ _ _ _ _ S2).
  - intros m Hm. apply (cs_old _ _ _ _ _ _ S2), (cs_old _ _ _ _ _ _ S1), Hm.
  - intros Habs. destruct (decide (R = L)) as [->|Hne]; [by apply HL|].
    assert (Habs1 : dict_contains R (nodes T1) = false).
    { unfold dict_contains in *. by rewrite (cs_other _ _ _ _ _ _ S1 _ Hne). }
    destruct (cs_new _ _ _ _ _ _ S2 Habs1) as (m & Hm & Hw1 & Hw2).
    assert (Hw : node_heap w !! m = None).
    { destruct (node_heap w !! m) as [o|] eqn:E; [|done].
      apply (cs_keep _ _ _ _ _ _ S1) in E. congruence. }
    exists m. split; [done|]. split; [done|]. by apply Hfresh.
Qed.

(** With a library that accepts, a test-node mutator on a node that is in
    a tree returns. *)
Lemma set_test_node_total (n : loc) (N : Node) (t : loc) (T : Tree) (k : Z)
    (test : option Z -> Z -> NativeCall) (L R : Z) (w : World) :
  node_heap w !! n = Some N -> tree N = Some t -> node_key N = Some k ->
  tree_heap w !! t = Some T ->
  accepting -> (forall h key, accepted (test h key) = 0) ->
  exists w', set_test_node n test L R w = (Ok tt, w').
Proof.
  intros HN Ht Hk HT Hacc Htest.
  destruct (set_test_node_cases n N t T k test L R w HN Ht Hk HT)
    as [(w1 & T1 & w2 & T2 & S1 & S2 & Heq)|(w1 & _ & Hn)]; [|done].
  cbv zeta in Heq. rewrite Heq, Hacc, Htest. cbn. eauto.
Qed.



(** C5: after [setNumericalTest(..., leftKey=L, rightKey=R)] has returned
    on a node of tree [t], both keys are in the tree; a key the tree had
    keeps the node it was bound to; a key the tree did not have is bound
    to a node that was not in the store before the call, empty, recording
    the key and the tree.  With a library that accepts, the call returns. *)
Theorem C5_numerical_test_children (n : loc) (N : Node) (t : loc) (T : Tree)
    (k feature_id : Z) (opname : pystr) (threshold : pyfloat)
    (default_left : bool) (L R : Z) (w : World) :
  node_heap w !! n = Some N -> tree N = Some t -> node_key N = Some k ->
  tree_heap w !! t = Some T ->
  (forall w',
     Node_set_numerical_test_node n feature_id opname threshold default_left
                                  L R w = (Ok tt, w') ->
     exists T',
       tree_heap w' !! t = Some T' /\
       forall K, K = L \/ K = R ->
         dict_contains K (nodes T') = true /\
         (forall m, dict_get K (nodes T) = Some m ->
                    dict_get K (nodes T') = Some m) /\
         (dict_contains K (nodes T) = false ->
          exists m, dict_get K (nodes T') = Some m /\
                    node_heap w !! m = None /\
                    node_heap w' !! m = Some (mkNode true (Some K) (Some t))))
  /\
  (accepting ->
   exists w',
     Node_set_numerical_test_node n feature_id opname threshold default_left
                                  L R w = (Ok tt, w')).
Proof.
  intros HN Ht Hk HT. unfold Node_set_numerical_test_node. split.
  - intros w'. by apply set_test_node_children with (N := N) (k := k).
  - intros Hacc. by apply set_test_node_total with (N := N) (t := t) (T := T) (k := k).
Qed.

(** ** Conversion of a leaf value *)

Lemma py_float_pure (v : PyVal) (w : World) : snd (py_float v w) = w.
Proof.
  destruct v; try done; simpl.
  - by destruct (binary_normalize 53 1024 z 0 false).
  - by destruct (float_of_str s).
Qed.

Lemma mapM_py_float_pure (l : list PyVal) (w : World) :
  snd (mapM py_float l w) = w.
Proof.
  induction l as [|v l IH]; [done|]. simpl. unfold bind.
  pose proof (py_float_pure v w) as Hv.
  destruct (py_float v w) as [[f|e] w1]; simpl in Hv; subst w1; [|done].
  destruct (mapM py_float l w) as [[fs|e] w2]; simpl in IH; by subst w2.
Qed.

Lemma py_iter_pure (v : PyVal) (w : World) : snd (py_iter v w) = w.
Proof.
  destruct v; try done. simpl. unfold bind, get_tree.
  by destruct (tree_heap w !! t).
Qed.

(** The conversion reads the store and leaves it as it is. *)
Lemma convert_leaf_value_pure (v : PyVal) (w : World) :
  snd (convert_leaf_value v w) = w.
Proof.
  unfold convert_leaf_value, bind at 1, try_except at 1, bind at 1.
  pose proof (py_iter_pure v w) as Hi.
  destruct (py_iter v w) as [[l|e] w1] eqn:Ei; simpl in Hi; subst w1.
  - unfold pure at 1. unfold try_except, bind. rewrite Ei.
    pose proof (mapM_py_float_pure l w) as Hm.
    destruct (mapM py_float l w) as [[fs|e] w1]; simpl in Hm; subst w1; [done|].
    by destruct (is_TypeError e).
  - destruct (is_TypeError e); [|done]. unfold pure at 1.
    unfold try_except, bind.
    pose proof (py_float_pure v w) as Hf.
    destruct (py_float v w) as [[f|e'] w1]; simpl in Hf; subst w1; [done|].
    by destruct (is_TypeError e').
Qed.

(** The characters of a string, converted one by one. *)
Lemma mapM_py_float_chars (s : pystr) (fs : list pyfloat) (w : World) :
  Forall2 (fun c f => float_of_str [c] = Some f) s fs ->
  mapM py_float (map (fun c => VStr [c]) s) w = (Ok fs, w).
Proof.
  induction 1 as [|c f s fs Hc Hs IH]; [done|]. simpl.
  unfold bind at 1. rewrite Hc. unfold pure at 1.
  unfold bind at 1. by rewrite IH.
Qed.

(** ** Node.set_root and Node.set_leaf_node *)

Lemma native_call_run (c : NativeCall) (w : World) :
  native_call c w =
    (Ok (fst (_LIB c (native w))),
     mkWorld (node_heap w) (tree_heap w) (builder_heap w)
             (snd (_LIB c (native w))) (calls w ++ [c])).
Proof. unfold native_call. by destruct (_LIB c (native w)). Qed.

Lemma set_empty_False_ok (n : loc) (N : Node) (w : World) :
  node_heap w !! n = Some N ->
  set_empty_False n w =
    (Ok tt,
     mkWorld (<[n := mkNode false (node_key N) (tree N)]> (node_heap w))
             (tree_heap w) (builder_heap w) (native w) (calls w)).
Proof.
  intros HN. unfold set_empty_False.
  by rewrite (bind_ok _ _ _ _ _ (get_node_ok _ _ _ HN)).
Qed.

Lemma Node_set_root_unregistered (n : loc) (N : Node) (w : World) :
  node_heap w !! n = Some N -> tree N = None ->
  Node_set_root n w = (Raise (TreeliteError msg_never_root), w).
Proof.
  intros HN Ht. unfold Node_set_root.
  eapply (try_except_caught _ _ _ _ _ AttributeError); [|reflexivity].
  rewrite (bind_ok _ _ _ _ _ (get_node_ok _ _ _ HN)), Ht. reflexivity.
Qed.









(** C6, where the code departs from it: a string is list-like, so
    [setLeaf] converts it character by character.  A string of characters
    that [float] accepts, which is neither a number nor a sequence of
    numbers, is taken for a vector of leaf values and the call succeeds;
    a string whose first character [float] refuses makes the call fail
    with the ValueError of [float], which the mutator does not catch, and
    not with the type error of the module. *)
Theorem C6_set_leaf_node_on_str (n : loc) (N : Node) (t : loc) (T : Tree)
    (k : Z) (w : World) :
  node_heap w !! n = Some N -> tree N = Some t -> node_key N = Some k ->
  tree_heap w !! t = Some T ->
  (forall s fs,
     Forall2 (fun c f => float_of_str [c] = Some f) s fs ->
     let c := TreeliteTreeBuilderSetLeafVectorNode
                (handle T) (c_int k) fs (c_size_t (length fs)) in
     ret (fst (_LIB c (native w))) = 0 ->
     Node_set_leaf_node n (VStr s) w =
       (Ok tt,
        mkWorld (<[n := mkNode false (Some k) (Some t)]> (node_heap w))
                (tree_heap w) (builder_heap w)
                (snd (_LIB c (native w))) (calls w ++ [c])))
  /\
  (forall c s,
     float_of_str [c] = None ->
     Node_set_leaf_node n (VStr (c :: s)) w
     = (Raise (ValueError msg_float_str), w)).
Proof.
  intros HN Ht Hk HT. split.
  - intros s fs Hs c Hret.
    assert (Hc : convert_leaf_value (VStr s) w = (Ok (inr fs), w)).
    { unfold convert_leaf_value.
      erewrite bind_ok; [|reflexivity]. apply try_except_ok.
      erewrite bind_ok; [|reflexivity].
      by rewrite (bind_ok _ _ _ _ _ (mapM_py_float_chars _ _ _ Hs)). }
    unfold Node_set_leaf_node. rewrite (bind_ok _ _ _ _ _ Hc).
    apply try_except_ok.
    rewrite (bind_ok _ _ _ _ _ (get_node_ok _ _ _ HN)), Ht, Hk. cbn [attr].
    erewrite bind_ok; [|reflexivity].
    rewrite (bind_ok _ _ _ _ _ (get_tree_ok _ _ _ HT)).
    erewrite bind_ok; [|reflexivity].
    rewrite (bind_ok _ _ _ _ _ (native_call_run _ _)). fold c.
    rewrite Hret. erewrite bind_ok; [|reflexivity].
    erewrite set_empty_False_ok by done. by rewrite Ht, Hk.
  - intros c s Hc. unfold Node_set_leaf_node.
    apply bind_raise. unfold convert_leaf_value.
    erewrite bind_ok; [|reflexivity].
    apply try_except_pass; [|done].
    erewrite bind_ok; [|reflexivity].
    apply bind_raise. simpl. apply bind_raise. simpl. by rewrite Hc.
Qed.

(** ** Parameters *)

(** The three shapes of a parameter set come to the same items. *)
Lemma param_items_shapes (items : list (PyVal * PyVal)) (key : pystr)
    (v : PyVal) (value : option PyVal) (w : World) :
  param_items (PList items) value w = param_items (PMapping items) value w /\
  param_items (PString key) (Some v) w
  = param_items (PMapping [(VStr key, v)]) None w.
Proof. split; [reflexivity | by destruct key]. Qed.

(** On values that are strings already, [str] changes nothing and the two
    helpers hand the same pairs to the library. *)
Lemma set_param_same_on_strings (s : pystr) :
  py_str (VStr s) = s -> VStr (py_str (VStr s)) = VStr s.
Proof. by intros ->. Qed.

(** C7, where the code departs from it: on the same parameters the two
    helpers make one call each, and the call of [_set_param] carries the
    value as it was given while the call of [_set_compiler_param] carries
    [str] of it.  For a value that is not a string, a float say, the two
    differ: the builder hands the float itself to the marshalling of
    strings. *)
Theorem C7_builder_value_not_stringified (self : loc) (B : ModelBuilder)
    (compiler_handle : option Z) (key v : PyVal) (w : World) :
  builder_heap w !! self = Some B ->
  (forall s, v <> VStr s) ->
  exists val_builder val_compiler,
    calls (snd (ModelBuilder_set_param self (PMapping [(key, v)]) None w))
    = calls w ++ [TreeliteModelBuilderSetModelParam
                    (builder_handle B) key val_builder] /\
    calls (snd (Model_set_compiler_param compiler_handle
                                         (PMapping [(key, v)]) None w))
    = calls w ++ [TreeliteCompilerSetParam compiler_handle key val_compiler] /\
    val_builder = v /\
    val_compiler = VStr (py_str v) /\
    val_builder <> val_compiler.
Proof.
  intros HB Hv. exists v, (VStr (py_str v)).
  split; [|split; [|split; [done|split; [done|apply Hv]]]].
  - unfold ModelBuilder_set_param.
    erewrite bind_ok; [|reflexivity]. cbn [forM_ fst snd].
    unfold bind at 1. rewrite (bind_ok _ _ _ _ _ (get_builder_ok _ _ _ HB)).
    rewrite (bind_ok _ _ _ _ _ (native_call_run _ _)).
    unfold _check_call. by destruct (ret _ =? 0).
  - unfold Model_set_compiler_param.
    erewrite bind_ok; [|reflexivity]. cbn [forM_ fst snd].
    unfold bind at 1. rewrite (bind_ok _ _ _ _ _ (native_call_run _ _)).
    unfold _check_call. by destruct (ret _ =? 0).
Qed.

(** * More of the module *)

(** ** ModelBuilder.insert, case by case *)

(** [insert] at a position in range: the three calls in turn, each under
    [_check_call], and the store each outcome leaves. *)
Lemma ModelBuilder_insert_cases (self : loc) (B : ModelBuilder) (t : loc)
    (T : Tree) (index : PyVal) (i : Z) (w : World) :
  as_int index = Some i ->
  builder_heap w !! self = Some B ->
  tree_heap w !! t = Some T ->
  0 <= i <= Z.of_nat (length (trees B)) ->
  let c1 := TreeliteModelBuilderInsertTree (builder_handle B) (handle T) (c_int i) in
  let s1 := snd (_LIB c1 (native w)) in
  let c2 := TreeliteDeleteTreeBuilder (handle T) in
  let s2 := snd (_LIB c2 s1) in
  let c3 := TreeliteModelBuilderGetTree (builder_handle B) (c_int i) in
  let r3 := fst (_LIB c3 s2) in
  let s3 := snd (_LIB c3 s2) in
  ModelBuilder_insert self (VTree t) index w =
    if ret (fst (_LIB c1 (native w))) =? i then
      if ret (fst (_LIB c2 s1)) =? 0 then
        match handle T with
        | None =>
            (Raise TypeError,
             mkWorld (node_heap w) (tree_heap w) (builder_heap w) s2
                     ((calls w ++ [c1]) ++ [c2]))
        | Some _ =>
            if ret r3 =? 0 then
              (Ok tt,
               mkWorld (node_heap w)
                       (<[t := mkTree (Some (out r3)) (nodes T) (Some self)]>
                          (tree_heap w))
                       (<[self := mkModelBuilder (builder_handle B)
                                    (list_insert_at i t (trees B))]>
                          (builder_heap w))
                       s3 (((calls w ++ [c1]) ++ [c2]) ++ [c3]))
            else
              (Raise TreeliteError_native,
               mkWorld (node_heap w)
                       (<[t := mkTree (Some (out r3)) (nodes T) (ensemble T)]>
                          (tree_heap w))
                       (builder_heap w) s3
                       (((calls w ++ [c1]) ++ [c2]) ++ [c3]))
        end
      else
        (Raise TreeliteError_native,
         mkWorld (node_heap w) (tree_heap w) (builder_heap w) s2
                 ((calls w ++ [c1]) ++ [c2]))
    else
      (Raise TreeliteError_native,
       mkWorld (node_heap w) (tree_heap w) (builder_heap w) s1
               (calls w ++ [c1])).
Proof.
  intros Hidx HB HT Hi c1 s1 c2 s2 c3 r3 s3.
  assert (Hs : (self < length (builder_heap w))%nat) by (eapply lookup_lt_Some; eauto).
  assert (Ht : (t < length (tree_heap w))%nat) by (eapply lookup_lt_Some; eauto).
  assert (Hrange : (i <? 0) || (i >? Z.of_nat (length (trees B))) = false).
  { apply orb_false_iff. split; [lia|]. rewrite Z.gtb_ltb. lia. }
  unfold ModelBuilder_insert. rewrite Hidx.
  rewrite (bind_ok _ _ _ _ _ (ModelBuilder_len_ok _ _ _ HB)), Hrange.
  rewrite (bind_ok _ _ _ _ _ (get_builder_ok _ _ _ HB)).
  rewrite (bind_ok _ _ _ _ _ (get_tree_ok _ _ _ HT)).
  rewrite (bind_ok _ _ _ _ _ (native_call_run _ _)). fold c1 s1.
  unfold _check_call at 1.
  destruct (ret (fst (_LIB c1 (native w))) =? i) eqn:E1; cbn [negb Z.eqb].
  2:{ by erewrite bind_raise; [|reflexivity]. }
  erewrite bind_ok; [|reflexivity].
  erewrite bind_ok; [|reflexivity].
  rewrite (bind_ok _ _ _ _ _ (native_call_run _ _)).
  cbn [native node_heap tree_heap builder_heap calls]. fold c2 s2.
  unfold _check_call at 1.
  destruct (ret (fst (_LIB c2 s1)) =? 0) eqn:E2.
  2:{ by erewrite bind_raise; [|reflexivity]. }
  erewrite bind_ok; [|reflexivity].
  destruct (handle T) as [h|] eqn:Eh.
  2:{ by erewrite bind_raise; [|reflexivity]. }
  unfold bind, native_call, _check_call, put_tree, put_builder, get_tree,
    get_builder, raise, pure.
  cbn [native node_heap tree_heap builder_heap calls].
  subst r3 s3. fold c3. destruct (_LIB c3 s2) as [r s].
  cbn [fst snd native node_heap tree_heap builder_heap calls].
  destruct (ret r =? 0); [|done].
  cbn [native node_heap tree_heap builder_heap calls].
  rewrite list_lookup_insert_eq by done.
  cbn [native node_heap tree_heap builder_heap calls handle nodes ensemble].
  rewrite HB. by rewrite list_insert_insert_eq.
Qed.

(** [insert] at a position out of range, whatever the tree. *)
Lemma ModelBuilder_insert_out_of_range (self : loc) (B : ModelBuilder)
    (tree index : PyVal) (i : Z) (w : World) :
  as_int index = Some i ->
  builder_heap w !! self = Some B ->
  i < 0 \/ Z.of_nat (length (trees B)) < i ->
  ModelBuilder_insert self tree index w
  = (Raise (ValueError msg_index_bounds), w).
Proof.
  intros Hidx HB Hi. unfold ModelBuilder_insert. rewrite Hidx.
  rewrite (bind_ok _ _ _ _ _ (ModelBuilder_len_ok _ _ _ HB)).
  replace ((i <? 0) || (i >? Z.of_nat (length (trees B)))) with true; [done|].
  symmetry. apply orb_true_iff. rewrite Z.gtb_ltb. lia.
Qed.

(** ** ModelBuilder.__delitem__, case by case *)

Lemma ModelBuilder_delitem_cases (self : loc) (B : ModelBuilder) (index : Z)
    (w : World) :
  builder_heap w !! self = Some B ->
  let c := TreeliteModelBuilderDeleteTree (builder_handle B) (c_int index) in
  let s := snd (_LIB c (native w)) in
  let called := mkWorld (node_heap w) (tree_heap w) (builder_heap w) s
                        (calls w ++ [c]) in
  ModelBuilder_delitem self index w =
    if ret (fst (_LIB c (native w))) =? 0 then
      match list_index (length (trees B)) index with
      | None => (Raise IndexError, called)
      | Some j =>
          match trees B !! j with
          | None => (Raise IndexError, called)
          | Some t =>
              match tree_heap w !! t with
              | None => (Raise NoSuchObject, called)
              | Some T =>
                  (Ok tt,
                   mkWorld (node_heap w)
                           (<[t := mkTree None (nodes T) (ensemble T)]>
                              (tree_heap w))
                           (<[self := mkModelBuilder (builder_handle B)
                                        (list_delete_at j (trees B))]>
                              (builder_heap w))
                           s (calls w ++ [c]))
              end
          end
      end
    else (Raise TreeliteError_native, called).
Proof.
  intros HB c s called. subst called s.
  unfold ModelBuilder_delitem.
  rewrite (bind_ok _ _ _ _ _ (get_builder_ok _ _ _ HB)). fold c.
  unfold bind, native_call, _check_call, get_builder, get_tree, put_tree,
    put_builder, raise, pure.
  destruct (_LIB c (native w)) as [r s].
  cbn [fst snd native node_heap tree_heap builder_heap calls].
  destruct (ret r =? 0); [|done].
  cbn [native node_heap tree_heap builder_heap calls]. rewrite HB.
  destruct (list_index (length (trees B)) index) as [j|]; [|done].
  destruct (trees B !! j) as [t|]; [|done].
  cbn [native node_heap tree_heap builder_heap calls].
  destruct (tree_heap w !! t) as [T|]; [|done].
  cbn [native node_heap tree_heap builder_heap calls]. by rewrite HB.
Qed.

(** ** The ensemble as a sequence *)

Lemma list_insert_at_end {A} (x : A) (l : list A) :
  list_insert_at (Z.of_nat (length l)) x l = l ++ [x].
Proof.
  rewrite list_insert_at_in_range by lia. rewrite Nat2Z.id.
  by rewrite take_ge, drop_ge by lia.
Qed.

Lemma list_delete_insert_at {A} (i : Z) (x : A) (l : list A) :
  0 <= i <= Z.of_nat (length l) ->
  list_delete_at (Z.to_nat i) (list_insert_at i x l) = l.
Proof.
  intros Hi. rewrite list_insert_at_in_range by done. unfold list_delete_at.
  assert (Hlen : length (take (Z.to_nat i) l) = Z.to_nat i)
    by (rewrite length_take; lia).
  rewrite take_app_length' by done.
  rewrite (cons_middle x), app_assoc.
  rewrite (drop_app_length' _ _ (S (Z.to_nat i))).
  - apply take_drop.
  - rewrite length_app, Hlen. simpl. lia.
Qed.


(** X2: a tree that holds no handle (one the ensemble has removed) is never
    inserted: whatever the position and whatever the library answers, the
    call raises, and the sequence of the ensemble is as it was. *)
Theorem X2_insert_needs_a_handle (self : loc) (B : ModelBuilder) (t : loc)
    (T : Tree) (index : PyVal) (w : World) :
  builder_heap w !! self = Some B ->
  tree_heap w !! t = Some T ->
  handle T = None ->
  exists e w',
    ModelBuilder_insert self (VTree t) index w = (Raise e, w') /\
    builder_heap w' = builder_heap w.
Proof.
  intros HB HT Hh.
  destruct (as_int index) as [i|] eqn:Hidx.
  2:{ unfold ModelBuilder_insert. rewrite Hidx. by eexists _, _. }
  destruct (decide (0 <= i <= Z.of_nat (length (trees B)))) as [Hi|Hi].
  2:{ rewrite (ModelBuilder_insert_out_of_range self B _ _ i); [|done|done|lia].
      by eexists _, _. }
  rewrite (ModelBuilder_insert_cases self B t T index i w Hidx HB HT Hi), Hh.
  destruct (ret _ =? i); [|by eexists _, _].
  destruct (ret _ =? 0); by eexists _, _.
Qed.

(** X3: what was inserted is found again.  After [insert(t, i)] has
    returned, [E[i]] is [t] and the lookup changes nothing. *)
Theorem X3_insert_then_getitem (self : loc) (B : ModelBuilder) (t : loc)
    (T : Tree) (i : Z) (w w' : World) :
  builder_heap w !! self = Some B ->
  tree_heap w !! t = Some T ->
  ModelBuilder_insert self (VTree t) (VInt i) w = (Ok tt, w') ->
  ModelBuilder_getitem self i w' = (Ok t, w') /\
  ModelBuilder_len self w' = (Ok (S (length (trees B))), w').
Proof.
  intros HB HT Hrun.
  assert (Hs : (self < length (builder_heap w))%nat) by (eapply lookup_lt_Some; eauto).
  destruct (decide (0 <= i <= Z.of_nat (length (trees B)))) as [Hi|Hi].
  2:{ rewrite (ModelBuilder_insert_out_of_range self B _ _ i) in Hrun;
        [done|done|done|lia]. }
  rewrite (ModelBuilder_insert_cases self B t T (VInt i) i w eq_refl HB HT Hi)
    in Hrun.
  destruct (ret _ =? i); [|done].
  destruct (ret _ =? 0); [|done].
  destruct (handle T) as [h|]; [|done].
  destruct (ret _ =? 0); [|done].
  injection Hrun as <-.
  destruct (list_insert_at_shape i t (trees B) Hi) as (Hlen & Hat & _).
  split.
  - unfold ModelBuilder_getitem. erewrite bind_ok; cycle 1.
    { apply get_builder_ok. cbn [builder_heap]. by apply list_lookup_insert_eq. }
    cbn [trees]. rewrite list_index_in_range by lia. by rewrite Hat.
  - erewrite ModelBuilder_len_ok; cycle 1.
    { cbn [builder_heap]. by apply list_lookup_insert_eq. }
    cbn [trees]. by rewrite Hlen.
Qed.

(** X4: removing what was just inserted gives the sequence back.  After
    [insert(t, i)] has returned, [del E[i]], when the library accepts it,
    returns and leaves the ensemble with the trees it had before the
    insertion, in the same order; the tree itself does not come back as it
    was: it has lost its handle and still names the ensemble. *)
Theorem X4_insert_then_delitem (self : loc) (B : ModelBuilder) (t : loc)
    (T : Tree) (i : Z) (w w' : World) :
  builder_heap w !! self = Some B ->
  tree_heap w !! t = Some T ->
  ModelBuilder_insert self (VTree t) (VInt i) w = (Ok tt, w') ->
  ret (fst (_LIB (TreeliteModelBuilderDeleteTree (builder_handle B) (c_int i))
                 (native w'))) = 0 ->
  exists w'',
    ModelBuilder_delitem self i w' = (Ok tt, w'') /\
    builder_heap w'' !! self = Some B /\
    tree_heap w'' !! t = Some (mkTree None (nodes T) (Some self)).
Proof.
  intros HB HT Hrun Hret.
  assert (Hs : (self < length (builder_heap w))%nat) by (eapply lookup_lt_Some; eauto).
  assert (Ht : (t < length (tree_heap w))%nat) by (eapply lookup_lt_Some; eauto).
  destruct (decide (0 <= i <= Z.of_nat (length (trees B)))) as [Hi|Hi].
  2:{ rewrite (ModelBuilder_insert_out_of_range self B _ _ i) in Hrun;
        [done|done|done|lia]. }
  rewrite (ModelBuilder_insert_cases self B t T (VInt i) i w eq_refl HB HT Hi)
    in Hrun.
  destruct (ret _ =? i); [|done].
  destruct (ret _ =? 0); [|done].
  destruct (handle T) as [h|]; [|done].
  destruct (ret _ =? 0); [|done].
  injection Hrun as <-.
  destruct (list_insert_at_shape i t (trees B) Hi) as (Hlen & Hat & _).
  erewrite ModelBuilder_delitem_cases; cycle 1.
  { cbn [builder_heap]. by apply list_lookup_insert_eq. }
  cbn [builder_handle trees] in *. rewrite Hret. cbn [Z.eqb].
  rewrite list_index_in_range by lia. rewrite Hat.
  cbn [tree_heap]. rewrite list_lookup_insert_eq by done.
  eexists. split; [reflexivity|]. cbn [builder_heap tree_heap nodes ensemble].
  split.
  - rewrite list_insert_insert_eq, list_delete_insert_at by done.
    rewrite list_lookup_insert_eq by done. by destruct B.
  - rewrite list_insert_insert_eq. by apply list_lookup_insert_eq.
Qed.

(** X5: [append] puts the tree last.  An [append] that returns has added
    the tree after every tree the ensemble had, which keep their
    positions; [append] never fails with the index-out-of-range error,
    whatever it is given; and it returns when the library accepts the
    calls (the tree holding a handle, the length fitting a C int). *)
Theorem X5_append_puts_last (self : loc) (B : ModelBuilder) (t : loc)
    (T : Tree) (w : World) :
  builder_heap w !! self = Some B ->
  tree_heap w !! t = Some T ->
  (forall w', ModelBuilder_append self (VTree t) w = (Ok tt, w') ->
     builder_heap w' !! self
     = Some (mkModelBuilder (builder_handle B) (trees B ++ [t])))
  /\
  (forall tree e w', ModelBuilder_append self tree w = (Raise e, w') ->
     e <> ValueError msg_index_bounds)
  /\
  (accepting -> handle T <> None ->
   c_int (Z.of_nat (length (trees B))) = Z.of_nat (length (trees B)) ->
   exists w', ModelBuilder_append self (VTree t) w = (Ok tt, w')).
Proof.
  intros HB HT.
  assert (Hs : (self < length (builder_heap w))%nat) by (eapply lookup_lt_Some; eauto).
  assert (Hi : 0 <= Z.of_nat (length (trees B)) <= Z.of_nat (length (trees B))) by lia.
  assert (Happ : forall tree,
    ModelBuilder_append self tree w
    = ModelBuilder_insert self tree (VInt (Z.of_nat (length (trees B)))) w).
  { intros tree. unfold ModelBuilder_append.
    by rewrite (bind_ok _ _ _ _ _ (ModelBuilder_len_ok _ _ _ HB)). }
  repeat split.
  - intros w'. rewrite Happ.
    rewrite (ModelBuilder_insert_cases self B t T (VInt _) _ w eq_refl HB HT Hi).
    destruct (ret _ =? _); [|done].
    destruct (ret _ =? 0); [|done].
    destruct (handle T) as [h|]; [|done].
    destruct (ret _ =? 0); [|done].
    intros [= <-]. cbn [builder_heap].
    rewrite list_lookup_insert_eq by done. by rewrite list_insert_at_end.
  - intros tree e w'. rewrite Happ. destruct tree as [| | | | | |n|t'].
    1-7: unfold ModelBuilder_insert; cbn [as_int];
      rewrite (bind_ok _ _ _ _ _ (ModelBuilder_len_ok _ _ _ HB));
      (replace ((Z.of_nat (length (trees B)) <? 0)
                || (Z.of_nat (length (trees B)) >? Z.of_nat (length (trees B))))
         with false
         by (symmetry; apply orb_false_iff; split; [lia|rewrite Z.gtb_ltb; lia]));
      intros [= <- _]; discriminate.
    destruct (tree_heap w !! t') as [T'|] eqn:HT'.
    + rewrite (ModelBuilder_insert_cases self B t' T' (VInt _) _ w eq_refl HB HT' Hi).
      destruct (ret _ =? _); [|intros [= <- _]; discriminate].
      destruct (ret _ =? 0); [|intros [= <- _]; discriminate].
      destruct (handle T') as [h|]; [|intros [= <- _]; discriminate].
      destruct (ret _ =? 0); intros [= <- _]; discriminate.
    + unfold ModelBuilder_insert; cbn [as_int].
      rewrite (bind_ok _ _ _ _ _ (ModelBuilder_len_ok _ _ _ HB)).
      replace ((Z.of_nat (length (trees B)) <? 0)
                || (Z.of_nat (length (trees B)) >? Z.of_nat (length (trees B))))
         with false
         by (symmetry; apply orb_false_iff; split; [lia|rewrite Z.gtb_ltb; lia]).
      rewrite (bind_ok _ _ _ _ _ (get_builder_ok _ _ _ HB)).
      unfold bind at 1, get_tree. rewrite HT'. intros [= <- _]; discriminate.
  - intros Hacc Hh Hc. rewrite Happ.
    rewrite (ModelBuilder_insert_cases self B t T (VInt _) _ w eq_refl HB HT Hi).
    rewrite !Hacc. cbn [accepted]. rewrite Hc, Z.eqb_refl. cbn [Z.eqb].
    destruct (handle T); [|done]. eauto.
Qed.

(** X6: a negative index counts from the end.  On an ensemble of length n,
    [del E[index]] with index in [-n, 0), when the library accepts it,
    removes the entry at position n + index: the entries before it stay,
    those after it move one position earlier; and the tree that was there
    has lost its handle, its nodes and its owner being as they were. *)
Theorem X6_delitem_from_the_end (self : loc) (B : ModelBuilder) (index : Z)
    (w : World) :
  builder_heap w !! self = Some B ->
  (forall j t, trees B !! j = Some t -> is_Some (tree_heap w !! t)) ->
  - Z.of_nat (length (trees B)) <= index < 0 ->
  ret (fst (_LIB (TreeliteModelBuilderDeleteTree (builder_handle B) (c_int index))
                 (native w))) = 0 ->
  let j := Z.to_nat (index + Z.of_nat (length (trees B))) in
  exists w' B' t T,
    ModelBuilder_delitem self index w = (Ok tt, w') /\
    trees B !! j = Some t /\ tree_heap w !! t = Some T /\
    tree_heap w' !! t = Some (mkTree None (nodes T) (ensemble T)) /\
    builder_heap w' !! self = Some B' /\
    S (length (trees B')) = length (trees B) /\
    (forall k, (k < j)%nat -> trees B' !! k = trees B !! k) /\
    (forall k, (j <= k)%nat -> trees B' !! k = trees B !! S k).
Proof.
  intros HB Htrees Hi Hret j.
  assert (Hs : (self < length (builder_heap w))%nat) by (eapply lookup_lt_Some; eauto).
  assert (Hj : (j < length (trees B))%nat) by (subst j; lia).
  assert (Hidx : list_index (length (trees B)) index = Some j).
  { unfold list_index. destruct (index <? 0) eqn:E; [|lia].
    replace ((0 <=? index + Z.of_nat (length (trees B)))
             && (index + Z.of_nat (length (trees B)) <? Z.of_nat (length (trees B))))
      with true; [done|].
    symmetry. apply andb_true_iff. lia. }
  destruct (lookup_lt_is_Some_2 _ _ Hj) as [t Ht].
  destruct (Htrees _ _ Ht) as [T HT].
  assert (Hlt : (t < length (tree_heap w))%nat) by (eapply lookup_lt_Some; eauto).
  rewrite (ModelBuilder_delitem_cases self B index w HB), Hret, Hidx, Ht, HT.
  cbn [Z.eqb]. eexists _, _, t, T. split; [reflexivity|].
  cbn [tree_heap builder_heap]. split; [done|]. split; [done|].
  split; [by apply list_lookup_insert_eq|].
  split; [by apply list_lookup_insert_eq|]. cbn [trees].
  by apply list_delete_at_shape.
Qed.

(** ** The tree as a mapping *)

Lemma dict_get_in_keys {V} (k : Z) (v : V) (d : dict V) :
  dict_get k d = Some v -> In k (dict_keys d).
Proof.
  induction d as [|[k0 v0] d IH]; simpl; [done|].
  destruct (k =? k0) eqn:E; [apply Z.eqb_eq in E; auto|auto].
Qed.

Lemma dict_del_length {V} (k : Z) (v : V) (d : dict V) :
  dict_get k d = Some v -> S (length (dict_del k d)) = length d.
Proof.
  induction d as [|[k0 v0] d IH]; simpl; [done|].
  destruct (k =? k0); [done|]. intros Hd. simpl. by rewrite IH.
Qed.

Lemma dict_get_del_ne {V} (k k' : Z) (d : dict V) :
  k' <> k -> dict_get k' (dict_del k d) = dict_get k' d.
Proof.
  intros Hne. induction d as [|[k0 v0] d IH]; simpl; [done|].
  destruct (k =? k0) eqn:E.
  - apply Z.eqb_eq in E. subst k0.
    destruct (k' =? k) eqn:E'; [apply Z.eqb_eq in E'; congruence|done].
  - simpl. by rewrite IH.
Qed.

Lemma dict_get_del_eq {V} (k : Z) (d : dict V) :
  NoDup (dict_keys d) -> dict_get k (dict_del k d) = None.
Proof.
  induction d as [|[k0 v0] d IH]; simpl; [done|].
  intros Hnd. apply NoDup_cons in Hnd as [Hnotin Hnd].
  destruct (k =? k0) eqn:E.
  - apply Z.eqb_eq in E. subst k0.
    destruct (dict_get k d) as [v|] eqn:Hd; [|done].
    apply dict_get_in_keys in Hd. exfalso. apply Hnotin.
    by apply list_elem_of_In.
  - simpl. rewrite E. by apply IH.
Qed.

(** The inverse of [Tree_setitem_run]: a [__setitem__] that returned was
    given a new key and an empty node. *)
Lemma Tree_setitem_ok_inv (self : loc) (key : Z) (n : loc) (w w' : World) :
  Tree_setitem self key (VNode n) w = (Ok tt, w') ->
  exists T N,
    tree_heap w !! self = Some T /\ dict_contains key (nodes T) = false /\
    node_heap w !! n = Some N /\ empty N = true /\
    w' = mkWorld (<[n := mkNode true (Some key) (Some self)]> (node_heap w))
                 (<[self := mkTree (handle T) (nodes T ++ [(key, n)]) (ensemble T)]>
                    (tree_heap w))
                 (builder_heap w)
                 (snd (_LIB (TreeliteTreeBuilderCreateNode (handle T) (c_int key))
                            (native w)))
                 (calls w ++ [TreeliteTreeBuilderCreateNode (handle T) (c_int key)]).
Proof.
  intros Hrun.
  destruct (tree_heap w !! self) as [T|] eqn:HT.
  2:{ unfold Tree_setitem, bind, get_tree in Hrun. by rewrite HT in Hrun. }
  destruct (dict_contains key (nodes T)) eqn:Hk.
  { unfold Tree_setitem, bind, get_tree in Hrun. by rewrite HT, Hk in Hrun. }
  destruct (node_heap w !! n) as [N|] eqn:HN.
  2:{ unfold Tree_setitem, bind, get_tree, get_node in Hrun.
      by rewrite HT, Hk, HN in Hrun. }
  destruct (empty N) eqn:He.
  2:{ unfold Tree_setitem, bind, get_tree, get_node in Hrun.
      by rewrite HT, Hk, HN, He in Hrun. }
  rewrite (Tree_setitem_run _ _ _ _ _ _ HT Hk HN He) in Hrun.
  destruct (ret _ =? 0); [|done]. injection Hrun as <-.
  by exists T, N.
Qed.

(** [__getitem__] on a key the tree does not have, in full. *)
Lemma Tree_getitem_create (self : loc) (T : Tree) (key : Z) (w : World) :
  tree_heap w !! self = Some T ->
  dict_contains key (nodes T) = false ->
  let c := TreeliteTreeBuilderCreateNode (handle T) (c_int key) in
  let n := length (node_heap w) in
  Tree_getitem self key w =
    if ret (fst (_LIB c (native w))) =? 0
    then (Ok n,
          mkWorld (<[n := mkNode true (Some key) (Some self)]>
                     (node_heap w ++ [mkNode true None None]))
                  (<[self := mkTree (handle T) (nodes T ++ [(key, n)]) (ensemble T)]>
                     (tree_heap w))
                  (builder_heap w) (snd (_LIB c (native w))) (calls w ++ [c]))
    else (Raise TreeliteError_native,
          mkWorld (node_heap w ++ [mkNode true None None]) (tree_heap w)
                  (builder_heap w) (snd (_LIB c (native w))) (calls w ++ [c])).
Proof.
  intros HT Hk c n.
  assert (Hs : (self < length (tree_heap w))%nat) by (eapply lookup_lt_Some; eauto).
  set (w1 := mkWorld (node_heap w ++ [mkNode true None None]) (tree_heap w)
                     (builder_heap w) (native w) (calls w)).
  assert (HT1 : tree_heap w1 !! self = Some T) by done.
  assert (HN1 : node_heap w1 !! n = Some (mkNode true None None)).
  { cbn. by rewrite lookup_app_r, Nat.sub_diag by lia. }
  pose proof (Tree_setitem_run _ _ _ _ _ _ HT1 Hk HN1 eq_refl) as Hset.
  cbn [w1 native node_heap tree_heap builder_heap calls] in Hset. fold c in Hset.
  unfold Tree_getitem.
  rewrite (bind_ok _ _ _ _ _ (get_tree_ok _ _ _ HT)), Hk. cbn [negb].
  destruct (ret (fst (_LIB c (native w))) =? 0).
  - erewrite bind_ok; cycle 1.
    { erewrite bind_ok; [|reflexivity]. apply Hset. }
    erewrite bind_ok; cycle 1.
    { apply get_tree_ok. cbn [tree_heap]. by apply list_lookup_insert_eq. }
    cbn [nodes]. by rewrite dict_get_app_new.
  - apply bind_raise. erewrite bind_ok; [|reflexivity]. apply Hset.
Qed.

(** X7: [del T[k]] is local to the Python side.  On a key the tree has, it
    returns with the key gone (its keys being distinct, as those of a dict
    are), one node less, and every other key bound as before; the library
    is not called, and no node changes: the node that was at the key
    still records the key and the tree.  On a key the tree does not have
    it raises KeyError and changes nothing. *)
Theorem X7_tree_delitem_is_local (self : loc) (T : Tree) (key : Z) (w : World) :
  tree_heap w !! self = Some T ->
  (forall n, dict_get key (nodes T) = Some n ->
   exists w' T',
     Tree_delitem self key w = (Ok tt, w') /\
     tree_heap w' !! self = Some T' /\
     Tree_len self w' = (Ok (length (nodes T) - 1)%nat, w') /\
     (forall k', k' <> key -> dict_get k' (nodes T') = dict_get k' (nodes T)) /\
     (NoDup (dict_keys (nodes T)) -> Tree_contains self key w' = (Ok false, w')) /\
     node_heap w' = node_heap w /\ native w' = native w /\ calls w' = calls w)
  /\
  (dict_contains key (nodes T) = false ->
   Tree_delitem self key w = (Raise (KeyError key), w)).
Proof.
  intros HT.
  assert (Hs : (self < length (tree_heap w))%nat) by (eapply lookup_lt_Some; eauto).
  split.
  - intros n Hn.
    assert (Hk : dict_contains key (nodes T) = true)
      by (unfold dict_contains; by rewrite Hn).
    eexists _, (mkTree (handle T) (dict_del key (nodes T)) (ensemble T)).
    split.
    { unfold Tree_delitem.
      rewrite (bind_ok _ _ _ _ _ (get_tree_ok _ _ _ HT)), Hk. reflexivity. }
    cbn [tree_heap node_heap native calls nodes].
    assert (HT' : <[self := mkTree (handle T) (dict_del key (nodes T)) (ensemble T)]>
                    (tree_heap w) !! self
                  = Some (mkTree (handle T) (dict_del key (nodes T)) (ensemble T)))
      by (by apply list_lookup_insert_eq).
    split; [done|]. split.
    { unfold Tree_len. erewrite bind_ok; [|by apply get_tree_ok].
      cbn [nodes]. pose proof (dict_del_length _ _ _ Hn) as Hl.
      unfold pure. do 2 f_equal. lia. }
    split; [intros k' Hne; by apply dict_get_del_ne|].
    split; [|done].
    intros Hnd. erewrite Tree_contains_ok; [|exact HT']. cbn [nodes].
    unfold dict_contains. by rewrite dict_get_del_eq.
  - intros Hk. unfold Tree_delitem.
    by rewrite (bind_ok _ _ _ _ _ (get_tree_ok _ _ _ HT)), Hk.
Qed.

(** X8: a key that was deleted is made again from scratch.  After
    [del T[k]], the lookup [T[k]] asks the library to create the key (the
    library was never told of the deletion) and, when the library accepts,
    binds the key to a node that was not in the store, leaving the node
    that used to be at the key as it was. *)
Theorem X8_delitem_then_getitem (self : loc) (T : Tree) (key : Z) (n : loc)
    (N : Node) (w w1 : World) :
  tree_heap w !! self = Some T ->
  NoDup (dict_keys (nodes T)) ->
  dict_get key (nodes T) = Some n ->
  node_heap w !! n = Some N ->
  Tree_delitem self key w = (Ok tt, w1) ->
  let c := TreeliteTreeBuilderCreateNode (handle T) (c_int key) in
  calls (snd (Tree_getitem self key w1)) = calls w ++ [c] /\
  (ret (fst (_LIB c (native w))) = 0 ->
   exists n' w2,
     Tree_getitem self key w1 = (Ok n', w2) /\
     n' <> n /\ node_heap w !! n' = None /\
     node_heap w2 !! n' = Some (mkNode true (Some key) (Some self)) /\
     node_heap w2 !! n = Some N).
Proof.
  intros HT Hnd Hn HN Hdel c.
  assert (Hs : (self < length (tree_heap w))%nat) by (eapply lookup_lt_Some; eauto).
  assert (Hlt : (n < length (node_heap w))%nat) by (eapply lookup_lt_Some; eauto).
  assert (Hk : dict_contains key (nodes T) = true)
    by (unfold dict_contains; by rewrite Hn).
  unfold Tree_delitem in Hdel.
  rewrite (bind_ok _ _ _ _ _ (get_tree_ok _ _ _ HT)), Hk in Hdel.
  injection Hdel as <-.
  set (T1 := mkTree (handle T) (dict_del key (nodes T)) (ensemble T)).
  set (w1 := mkWorld _ _ _ _ _).
  assert (HT1 : tree_heap w1 !! self = Some T1)
    by (by apply list_lookup_insert_eq).
  assert (Hk1 : dict_contains key (nodes T1) = false).
  { unfold dict_contains. cbn [T1 nodes]. by rewrite dict_get_del_eq. }
  rewrite (Tree_getitem_create self T1 key w1 HT1 Hk1).
  cbn [T1 handle w1 native calls node_heap]. fold c. split.
  - by destruct (ret _ =? 0).
  - intros ->. cbn [Z.eqb]. eexists _, _. split; [reflexivity|].
    cbn [node_heap]. split; [lia|]. split; [by apply lookup_ge_None_2|].
    split.
    + apply list_lookup_insert_eq. rewrite length_app. simpl. lia.
    + rewrite list_lookup_insert_ne by lia. by apply lookup_app_l_Some.
Qed.

(** X9: a lookup that returned can be repeated.  After [T[k]] has returned
    a node, whether it found it or made it, [T[k]] returns the same node
    and changes nothing. *)
Theorem X9_getitem_is_stable (self : loc) (key : Z) (n : loc) (w w' : World) :
  Tree_getitem self key w = (Ok n, w') ->
  Tree_getitem self key w' = (Ok n, w').
Proof.
  unfold Tree_getitem at 1. unfold bind at 1.
  destruct (get_tree self w) as [[T|e] w0]; [|done].
  unfold bind at 1.
  destruct ((if negb (dict_contains key (nodes T))
             then n0 <- Node_init;; Tree_setitem self key (VNode n0)
             else pure tt) w0) as [[[]|e] w1]; [|done].
  unfold bind, get_tree.
  destruct (tree_heap w1 !! self) as [T1|] eqn:HT1; [|done].
  destruct (dict_get key (nodes T1)) as [m|] eqn:Hm; [|done].
  intros [= <- <-].
  unfold Tree_getitem.
  rewrite (bind_ok _ _ _ _ _ (get_tree_ok _ _ _ HT1)).
  unfold dict_contains. rewrite Hm. cbn [negb].
  erewrite bind_ok; [|reflexivity].
  rewrite (bind_ok _ _ _ _ _ (get_tree_ok _ _ _ HT1)). by rewrite Hm.
Qed.

(** X10: what was stored is found again.  After [T[k] = node] has
    returned, [k in T] holds and [T[k]] is that node, the lookup changing
    nothing. *)
Theorem X10_setitem_then_getitem (self : loc) (key : Z) (n : loc)
    (w w' : World) :
  Tree_setitem self key (VNode n) w = (Ok tt, w') ->
  Tree_contains self key w' = (Ok true, w') /\
  Tree_getitem self key w' = (Ok n, w').
Proof.
  intros Hrun.
  destruct (Tree_setitem_ok_inv _ _ _ _ _ Hrun) as (T & N & HT & Hk & HN & He & ->).
  assert (Hs : (self < length (tree_heap w))%nat) by (eapply lookup_lt_Some; eauto).
  set (w' := mkWorld _ _ _ _ _).
  assert (HT' : tree_heap w' !! self
                = Some (mkTree (handle T) (nodes T ++ [(key, n)]) (ensemble T)))
    by (by apply list_lookup_insert_eq).
  assert (Hd : dict_get key (nodes T ++ [(key, n)]) = Some n)
    by (by apply dict_get_app_new).
  split.
  - rewrite (Tree_contains_ok _ _ _ _ HT'). cbn [nodes].
    unfold dict_contains. by rewrite Hd.
  - unfold Tree_getitem.
    rewrite (bind_ok _ _ _ _ _ (get_tree_ok _ _ _ HT')). cbn [nodes].
    unfold dict_contains. rewrite Hd. cbn [negb].
    erewrite bind_ok; [|reflexivity].
    rewrite (bind_ok _ _ _ _ _ (get_tree_ok _ _ _ HT')). cbn [nodes].
    by rewrite Hd.
Qed.

(** X11: the tree lists its keys in the order they came.  A lookup that
    creates a key puts it after the keys the tree had: [keys()] (which is
    what iterating the tree walks), [values()] and [items()] each grow by
    one entry at the end, the rest as before. *)
Theorem X11_created_key_goes_last (self : loc) (T : Tree) (key : Z) (w : World) :
  tree_heap w !! self = Some T ->
  dict_contains key (nodes T) = false ->
  ret (fst (_LIB (TreeliteTreeBuilderCreateNode (handle T) (c_int key))
                 (native w))) = 0 ->
  exists n w',
    Tree_getitem self key w = (Ok n, w') /\
    Tree_keys self w = (Ok (dict_keys (nodes T)), w) /\
    Tree_keys self w' = (Ok (dict_keys (nodes T) ++ [key]), w') /\
    Tree_values self w' = (Ok (map snd (nodes T) ++ [n]), w') /\
    Tree_items self w' = (Ok (nodes T ++ [(key, n)]), w').
Proof.
  intros HT Hk Hret.
  assert (Hs : (self < length (tree_heap w))%nat) by (eapply lookup_lt_Some; eauto).
  rewrite (Tree_getitem_create self T key w HT Hk), Hret. cbn [Z.eqb].
  eexists _, _. split; [reflexivity|].
  set (w' := mkWorld _ _ _ _ _).
  assert (HT' : tree_heap w' !! self
                = Some (mkTree (handle T)
                               (nodes T ++ [(key, length (node_heap w))])
                               (ensemble T)))
    by (by apply list_lookup_insert_eq).
  repeat split.
  - unfold Tree_keys. by rewrite (bind_ok _ _ _ _ _ (get_tree_ok _ _ _ HT)).
  - unfold Tree_keys. rewrite (bind_ok _ _ _ _ _ (get_tree_ok _ _ _ HT')).
    cbn [nodes]. unfold dict_keys. by rewrite map_app.
  - unfold Tree_values. rewrite (bind_ok _ _ _ _ _ (get_tree_ok _ _ _ HT')).
    cbn [nodes]. by rewrite map_app.
  - unfold Tree_items. by rewrite (bind_ok _ _ _ _ _ (get_tree_ok _ _ _ HT')).
Qed.

(** ** Configuring a node *)

(** X12: the children of a categorical test.  After
    [setCategoricalTest(..., leftKey=L, rightKey=R)] has returned on a node
    of tree [t], both keys are in the tree; a key the tree had keeps its
    node; a key it did not have is bound to a node that was not in the
    store, empty, recording the key and the tree.  With a library that
    accepts, the call returns. *)
Theorem X12_categorical_test_children (n : loc) (N : Node) (t : loc) (T : Tree)
    (k feature_id : Z) (left_categories : list Z) (default_left : bool)
    (L R : Z) (w : World) :
  node_heap w !! n = Some N -> tree N = Some t -> node_key N = Some k ->
  tree_heap w !! t = Some T ->
  (forall w',
     Node_set_categorical_test_node n feature_id left_categories default_left
                                    L R w = (Ok tt, w') ->
     exists T',
       tree_heap w' !! t = Some T' /\
       forall K, K = L \/ K = R ->
         dict_contains K (nodes T') = true /\
         (forall m, dict_get K (nodes T) = Some m ->
                    dict_get K (nodes T') = Some m) /\
         (dict_contains K (nodes T) = false ->
          exists m, dict_get K (nodes T') = Some m /\
                    node_heap w !! m = None /\
                    node_heap w' !! m = Some (mkNode true (Some K) (Some t))))
  /\
  (accepting ->
   exists w',
     Node_set_categorical_test_node n feature_id left_categories default_left
                                    L R w = (Ok tt, w')).
Proof.
  intros HN Ht Hk HT. unfold Node_set_categorical_test_node. split.
  - intros w'. by apply set_test_node_children with (N := N) (k := k).
  - intros Hacc. by apply set_test_node_total with (N := N) (t := t) (T := T) (k := k).
Qed.

(** The second half of [set_leaf_node] on a node that is in a tree. *)
Lemma Node_set_leaf_node_registered (n : loc) (N : Node) (t : loc) (T : Tree)
    (k : Z) (v : PyVal) (leaf : pyfloat + list pyfloat) (w : World) :
  node_heap w !! n = Some N -> tree N = Some t -> node_key N = Some k ->
  tree_heap w !! t = Some T ->
  convert_leaf_value v w = (Ok leaf, w) ->
  let c := match leaf with
           | inr fs => TreeliteTreeBuilderSetLeafVectorNode
                         (handle T) (c_int k) fs (c_size_t (length fs))
           | inl f => TreeliteTreeBuilderSetLeafNode
                        (handle T) (c_int k) (c_float f)
           end in
  Node_set_leaf_node n v w =
    if ret (fst (_LIB c (native w))) =? 0
    then (Ok tt,
          mkWorld (<[n := mkNode false (Some k) (Some t)]> (node_heap w))
                  (tree_heap w) (builder_heap w)
                  (snd (_LIB c (native w))) (calls w ++ [c]))
    else (Raise TreeliteError_native,
          mkWorld (node_heap w) (tree_heap w) (builder_heap w)
                  (snd (_LIB c (native w))) (calls w ++ [c])).
Proof.
  intros HN Ht Hk HT Hc c.
  unfold Node_set_leaf_node. rewrite (bind_ok _ _ _ _ _ Hc).
  assert (Hbody : forall body : M unit, forall r,
            body w = r -> (forall w1, r <> (Raise AttributeError, w1)) ->
            try_except body is_AttributeError
              (raise (TreeliteError msg_never_leaf)) w = r).
  { intros body [[[]|e] w1] Hb Hne; unfold try_except; rewrite Hb; [done|].
    destruct e; try done. by destruct (Hne w1). }
  apply Hbody; [|by destruct (ret _ =? 0)].
  rewrite (bind_ok _ _ _ _ _ (get_node_ok _ _ _ HN)), Ht, Hk. cbn [attr].
  erewrite bind_ok; [|reflexivity].
  rewrite (bind_ok _ _ _ _ _ (get_tree_ok _ _ _ HT)).
  erewrite bind_ok; [|reflexivity].
  assert (Hcall :
    match leaf with
    | inl f => native_call (TreeliteTreeBuilderSetLeafNode
                              (handle T) (c_int k) (c_float f))
    | inr fs => native_call (TreeliteTreeBuilderSetLeafVectorNode
                               (handle T) (c_int k) fs (c_size_t (length fs)))
    end = native_call c) by (by destruct leaf).
  rewrite Hcall. rewrite (bind_ok _ _ _ _ _ (native_call_run _ _)).
  unfold _check_call. destruct (ret _ =? 0).
  - erewrite bind_ok; [|reflexivity].
    erewrite set_empty_False_ok by done. by rewrite Ht, Hk.
  - by erewrite bind_raise; [|reflexivity].
Qed.





(** X14: a configured node cannot enter a tree.  On a node that is in a
    tree, a [setLeaf], [setNumericalTest] or [setCategoricalTest] that
    returned leaves the node not empty, with the key and the tree it had;
    from then on [T.set(k, node)] on any tree and any key the tree does
    not have is refused with the non-empty-insertion error. *)
Theorem X14_configured_node_is_refused (n : loc) (N : Node) (t : loc)
    (T : Tree) (k : Z) (w w' : World) :
  node_heap w !! n = Some N -> tree N = Some t -> node_key N = Some k ->
  tree_heap w !! t = Some T ->
  (exists v, Node_set_leaf_node n v w = (Ok tt, w')) \/
  (exists feature_id opname threshold default_left L R,
     Node_set_numerical_test_node n feature_id opname threshold default_left
                                  L R w = (Ok tt, w')) \/
  (exists feature_id left_categories default_left L R,
     Node_set_categorical_test_node n feature_id left_categories default_left
                                    L R w = (Ok tt, w')) ->
  node_heap w' !! n = Some (mkNode false (Some k) (Some t)) /\
  forall self T' key,
    tree_heap w' !! self = Some T' ->
    dict_contains key (nodes T') = false ->
    Tree_setitem self key (VNode n) w'
    = (Raise (ValueError msg_nonempty), w').
Proof.
  intros HN Ht Hk HT Hrun.
  assert (Hlt : (n < length (node_heap w))%nat) by (eapply lookup_lt_Some; eauto).
  assert (Hn : node_heap w' !! n = Some (mkNode false (Some k) (Some t))).
  { assert (Htest : forall test L R,
              set_test_node n test L R w = (Ok tt, w') ->
              node_heap w' !! n = Some (mkNode false (Some k) (Some t))).
    { intros test L R Hr.
      destruct (set_test_node_cases n N t T k test L R w HN Ht Hk HT)
        as [(w1 & T1 & w2 & T2 & S1 & S2 & Heq)|(w1 & Heq & _)];
        [|congruence].
      cbv zeta in Heq. rewrite Heq in Hr.
      destruct (ret _ =? 0); [|done]. injection Hr as <-. cbn [node_heap].
      apply list_lookup_insert_eq.
      pose proof (cs_keep _ _ _ _ _ _ S2 _ _
                    (cs_keep _ _ _ _ _ _ S1 _ _ HN)) as HN2.
      by eapply lookup_lt_Some. }
    destruct Hrun as [(v & Hr)|[(fid & op & th & dl & L & R & Hr)
                               |(fid & cats & dl & L & R & Hr)]].
    - pose proof (convert_leaf_value_pure v w) as Hp.
      destruct (convert_leaf_value v w) as [[leaf|e] w1] eqn:Ec;
        simpl in Hp; subst w1.
      + rewrite (Node_set_leaf_node_registered n N t T k v leaf w HN Ht Hk HT Ec)
          in Hr.
        destruct (ret _ =? 0); [|done]. injection Hr as <-. cbn [node_heap].
        by apply list_lookup_insert_eq.
      + unfold Node_set_leaf_node in Hr.
        by rewrite (bind_raise _ _ _ _ _ Ec) in Hr.
    - by eapply Htest.
    - by eapply Htest. }
  split; [done|].
  intros self T' key HT' Hkey. unfold Tree_setitem.
  rewrite (bind_ok _ _ _ _ _ (get_tree_ok _ _ _ HT')), Hkey.
  by rewrite (bind_ok _ _ _ _ _ (get_node_ok _ _ _ Hn)).
Qed.

(** X15: marking a root changes no object.  [setRoot], on any node and
    whatever the library answers, leaves every node, tree and ensemble of
    the store as it was: the node stays empty or configured as it was.
    On a node that is in a tree it makes one call, with the handle of the
    tree and the key of the node, and returns exactly when the library
    accepts; on a node that is in no tree it calls nothing. *)
Theorem X15_set_root_changes_no_object (n : loc) (w : World) :
  (forall r w', Node_set_root n w = (r, w') ->
     node_heap w' = node_heap w /\ tree_heap w' = tree_heap w /\
     builder_heap w' = builder_heap w)
  /\
  (forall N t T k,
     node_heap w !! n = Some N -> tree N = Some t -> node_key N = Some k ->
     tree_heap w !! t = Some T ->
     let c := TreeliteTreeBuilderSetRootNode (handle T) (c_int k) in
     calls (snd (Node_set_root n w)) = calls w ++ [c] /\
     (fst (Node_set_root n w) = Ok tt <-> ret (fst (_LIB c (native w))) = 0))
  /\
  (forall N, node_heap w !! n = Some N -> tree N = None ->
     calls (snd (Node_set_root n w)) = calls w).
Proof.
  split; [|split].
  - intros r w'. unfold Node_set_root, try_except, bind, get_node, get_tree,
      attr, native_call, _check_call, raise, pure.
    destruct (node_heap w !! n) as [N|]; [|by intros [= <- <-]].
    destruct (tree N) as [t|]; [|by intros [= <- <-]].
    destruct (tree_heap w !! t) as [T|]; [|by intros [= <- <-]].
    destruct (node_key N) as [k|]; [|by intros [= <- <-]].
    destruct (_LIB _ (native w)) as [r0 s].
    destruct (ret r0 =? 0); by intros [= <- <-].
  - intros N t T k HN Ht Hk HT c.
    assert (Hrun : Node_set_root n w =
              (if ret (fst (_LIB c (native w))) =? 0 then Ok tt
               else Raise TreeliteError_native,
               mkWorld (node_heap w) (tree_heap w) (builder_heap w)
                       (snd (_LIB c (native w))) (calls w ++ [c]))).
    { unfold Node_set_root, try_except.
      rewrite (bind_ok _ _ _ _ _ (get_node_ok _ _ _ HN)), Ht, Hk. cbn [attr].
      erewrite bind_ok; [|reflexivity].
      rewrite (bind_ok _ _ _ _ _ (get_tree_ok _ _ _ HT)).
      erewrite bind_ok; [|reflexivity].
      rewrite (bind_ok _ _ _ _ _ (native_call_run _ _)). fold c.
      unfold _check_call. by destruct (ret _ =? 0). }
    rewrite Hrun. cbn [fst snd calls]. split; [done|].
    destruct (ret _ =? 0) eqn:E.
    + apply Z.eqb_eq in E. by split.
    + apply Z.eqb_neq in E. split; [done|]. intros; contradiction.
  - intros N HN Ht. by rewrite (Node_set_root_unregistered n N w HN Ht).
Qed.

(** ** Formats *)

Lemma is_ascii_forallb (s : pystr) :
  is_ascii s <-> forallb (fun c => (c <? 128)%N) s = true.
Proof.
  unfold is_ascii. induction s as [|c s IH]; simpl.
  - split; [done|constructor].
  - rewrite andb_true_iff, <- IH, N.ltb_lt. split.
    + intros Hs. inversion Hs; subst. done.
    + intros [Hc Hs]. by constructor.
Qed.

(** X16: [_isascii] tests every code point.  Comparing the length of the
    string with the length of its encoding comes to testing that each
    code point is below 128; so the empty string is ASCII, a string with
    a surrogate is not, and a concatenation is ASCII exactly when both
    parts are. *)
Theorem X16_isascii_pointwise (s : pystr) :
  _isascii s = forallb (fun c => (c <? 128)%N) s /\
  forall s', _isascii (s ++ s') = _isascii s && _isascii s'.
Proof.
  assert (Hpt : forall a, _isascii a = forallb (fun c => (c <? 128)%N) a).
  { intros a. destruct (_isascii a) eqn:E.
    - symmetry. by apply is_ascii_forallb, _isascii_spec.
    - destruct (forallb (fun c => (c <? 128)%N) a) eqn:F; [|done].
      apply is_ascii_forallb, _isascii_spec in F. congruence. }
  split; [apply Hpt|]. intros s'. rewrite !Hpt. apply forallb_app.
Qed.

Lemma lower_ascii (s : pystr) : is_ascii s -> is_ascii (lower s).
Proof.
  unfold is_ascii, lower. induction 1 as [|c s Hc Hs IH]; simpl; constructor.
  - destruct ((65 <=? c)%N && (c <=? 90)%N) eqn:E; [|done].
    apply andb_true_iff in E as [_ E]. apply N.leb_le in E. lia.
  - done.
Qed.

Lemma lower_idempotent (s : pystr) : lower (lower s) = lower s.
Proof.
  unfold lower. induction s as [|c s IH]; simpl; [done|]. rewrite IH. f_equal.
  destruct ((65 <=? c)%N && (c <=? 90)%N) eqn:E; [|by rewrite E].
  apply andb_true_iff in E as [E1 E2]. apply N.leb_le in E1, E2.
  replace ((65 <=? c + 32)%N && (c + 32 <=? 90)%N) with false; [done|].
  symmetry. apply andb_false_iff. right. apply N.leb_gt. lia.
Qed.

(** X17: [load] does not look at the case of the format.  On a pure-ASCII
    format, [load] does what it does on the lower-case form of it; so two
    pure-ASCII formats that differ only in the case of their letters are
    loaded alike, same call, same result. *)
Theorem X17_load_ignores_case (filename a b : pystr) (w : World) :
  is_ascii a ->
  Model_load filename a w = Model_load filename (lower a) w /\
  (is_ascii b -> lower a = lower b ->
   Model_load filename a w = Model_load filename b w).
Proof.
  assert (Hlow : forall s, is_ascii s ->
            Model_load filename s w = Model_load filename (lower s) w).
  { intros s Hs. unfold Model_load.
    rewrite (proj2 (_isascii_spec s) Hs).
    rewrite (proj2 (_isascii_spec (lower s)) (lower_ascii _ Hs)).
    by rewrite lower_idempotent. }
  intros Ha. split; [by apply Hlow|].
  intros Hb Hab. by rewrite (Hlow a Ha), (Hlow b Hb), Hab.
Qed.

(** ** Forwarding parameters *)



(** ** Building an ensemble *)





(** ** Reading an ensemble *)

(** X21: the ensemble reads as a list.  [E[i]] for i in [0, n) is the
    i-th tree that iterating the ensemble yields, and [E[i - n]] is the
    same tree; [E[-1 - i]] is the i-th tree that [reversed(E)] yields; an
    index outside [-n, n) raises IndexError; and none of these changes the
    store or calls the library. *)
Theorem X21_ensemble_reads_as_a_list (self : loc) (B : ModelBuilder) (w : World) :
  builder_heap w !! self = Some B ->
  let n := Z.of_nat (length (trees B)) in
  ModelBuilder_iter self w = (Ok (trees B), w) /\
  ModelBuilder_reversed self w = (Ok (rev (trees B)), w) /\
  (forall (i : nat) t, trees B !! i = Some t ->
     ModelBuilder_getitem self (Z.of_nat i) w = (Ok t, w) /\
     ModelBuilder_getitem self (Z.of_nat i - n) w = (Ok t, w)) /\
  (forall (i : nat) t, rev (trees B) !! i = Some t ->
     ModelBuilder_getitem self (- 1 - Z.of_nat i) w = (Ok t, w)) /\
  (forall index, index < - n \/ n <= index ->
     ModelBuilder_getitem self index w = (Raise IndexError, w)).
Proof.
  intros HB n.
  assert (Hget : forall index (j : nat) t,
            list_index (length (trees B)) index = Some j ->
            trees B !! j = Some t ->
            ModelBuilder_getitem self index w = (Ok t, w)).
  { intros index j t Hidx Hj. unfold ModelBuilder_getitem.
    rewrite (bind_ok _ _ _ _ _ (get_builder_ok _ _ _ HB)). by rewrite Hidx, Hj. }
  assert (Hneg : forall index (j : nat),
            (j < length (trees B))%nat -> index = Z.of_nat j - n ->
            list_index (length (trees B)) index = Some j).
  { intros index j Hj ->. unfold list_index. fold n.
    destruct (Z.of_nat j - n <? 0) eqn:E; [|lia].
    replace ((0 <=? Z.of_nat j - n + n) && (Z.of_nat j - n + n <? n)) with true.
    - f_equal. lia.
    - symmetry. apply andb_true_iff. lia. }
  split; [|split; [|split; [|split]]].
  - unfold ModelBuilder_iter. by rewrite (bind_ok _ _ _ _ _ (get_builder_ok _ _ _ HB)).
  - unfold ModelBuilder_reversed.
    by rewrite (bind_ok _ _ _ _ _ (get_builder_ok _ _ _ HB)).
  - intros i t Hi. pose proof (lookup_lt_Some _ _ _ Hi) as Hlt. split.
    + apply (Hget _ i); [|done].
      rewrite list_index_in_range by lia. f_equal. lia.
    + apply (Hget _ i); [|done]. by apply Hneg.
  - intros i t Hi. pose proof (lookup_lt_Some _ _ _ Hi) as Hlt.
    rewrite length_rev in Hlt. rewrite rev_alt in Hi.
    change (rev_append (trees B) []) with (reverse (trees B)) in Hi.
    rewrite reverse_lookup in Hi by done.
    apply (Hget _ (length (trees B) - S i)%nat); [|done].
    apply Hneg; [lia|]. subst n. lia.
  - intros index Hi. unfold ModelBuilder_getitem.
    rewrite (bind_ok _ _ _ _ _ (get_builder_ok _ _ _ HB)).
    by rewrite (list_index_out_of_range _ _ Hi).
Qed.

(** ** What a failure leaves, and what insertion does not prevent *)

(** Child creation keeps the nodes the store has, whatever its outcome. *)
Lemma create_child_keeps_nodes (n : loc) (N : Node) (t : loc) (T : Tree)
    (K : Z) (w w1 : World) (r : Result unit) :
  node_heap w !! n = Some N -> tree N = Some t -> tree_heap w !! t = Some T ->
  create_child n K w = (r, w1) ->
  forall m o, node_heap w !! m = Some o -> node_heap w1 !! m = Some o.
Proof.
  intros HN Ht HT Hrun.
  destruct (create_child_spec n N t T K w HN Ht HT)
    as [(w2 & T2 & Hok & Hstep)|(w2 & Hraise & _)].
  - rewrite Hok in Hrun. injection Hrun as _ <-. apply Hstep.
  - assert (w1 = w2) by congruence. subst w2. clear Hrun.
    revert Hraise. unfold create_child.
    rewrite (bind_ok _ _ _ _ _ (get_node_ok _ _ _ HN)), Ht. cbn [attr].
    erewrite bind_ok; [|reflexivity].
    rewrite (bind_ok _ _ _ _ _ (Tree_contains_ok _ _ _ _ HT)).
    destruct (dict_contains K (nodes T)) eqn:HK; cbn [negb]; [done|].
    erewrite bind_ok; [|reflexivity].
    match goal with |- context [Tree_setitem _ _ _ ?x] => set (w0 := x) end.
    assert (HT0 : tree_heap w0 !! t = Some T) by done.
    assert (HN0 : node_heap w0 !! length (node_heap w)
                  = Some (mkNode true None None)).
    { cbn. by rewrite lookup_app_r, Nat.sub_diag by lia. }
    rewrite (Tree_setitem_run _ _ _ _ _ _ HT0 HK HN0 eq_refl).
    destruct (ret _ =? 0); [done|]. intros [= <-].
    intros m o Hm. subst w0. cbn [node_heap].
    by apply lookup_app_l_Some.
Qed.

(** X22: a mutator that fails has not configured the node.  On a node
    that is in a tree, when [setLeaf], [setNumericalTest] or
    [setCategoricalTest] raises, the node is as it was before the call, in
    particular as empty as it was, whatever children a test mutator has
    created by then. *)
Theorem X22_failed_mutator_leaves_node (n : loc) (N : Node) (t : loc)
    (T : Tree) (k : Z) (w w' : World) (e : exn) :
  node_heap w !! n = Some N -> tree N = Some t -> node_key N = Some k ->
  tree_heap w !! t = Some T ->
  (exists v, Node_set_leaf_node n v w = (Raise e, w')) \/
  (exists feature_id opname threshold default_left L R,
     Node_set_numerical_test_node n feature_id opname threshold default_left
                                  L R w = (Raise e, w')) \/
  (exists feature_id left_categories default_left L R,
     Node_set_categorical_test_node n feature_id left_categories default_left
                                    L R w = (Raise e, w')) ->
  node_heap w' !! n = Some N.
Proof.
  intros HN Ht Hk HT Hrun.
  assert (Htest : forall test L R,
            set_test_node n test L R w = (Raise e, w') ->
            node_heap w' !! n = Some N).
  { intros test L R Hr.
    destruct (set_test_node_cases n N t T k test L R w HN Ht Hk HT)
      as [(w1 & T1 & w2 & T2 & S1 & S2 & Heq)|_].
    { cbv zeta in Heq. rewrite Heq in Hr.
      destruct (ret _ =? 0); [done|]. injection Hr as _ <-. cbn [node_heap].
      apply (cs_keep _ _ _ _ _ _ S2), (cs_keep _ _ _ _ _ _ S1), HN. }
    revert Hr. unfold set_test_node, try_except. unfold bind at 1.
    destruct (create_child n L w) as [[[]|e1] w1] eqn:E1.
    2:{ pose proof (create_child_keeps_nodes _ _ _ _ _ _ _ _ HN Ht HT E1 _ _ HN).
        destruct (is_AttributeError e1); by intros [= _ <-]. }
    pose proof (create_child_keeps_nodes _ _ _ _ _ _ _ _ HN Ht HT E1 _ _ HN) as HN1.
    destruct (create_child_spec n N t T L w HN Ht HT)
      as [(w1' & T1 & Hok & Hstep)|(w1' & Hraise & _)]; [|congruence].
    rewrite E1 in Hok. injection Hok as <-.
    pose proof (cs_tree _ _ _ _ _ _ Hstep) as HT1.
    unfold bind at 1.
    destruct (create_child n R w1) as [[[]|e2] w2] eqn:E2.
    2:{ pose proof (create_child_keeps_nodes _ _ _ _ _ _ _ _ HN1 Ht HT1 E2 _ _ HN1).
        destruct (is_AttributeError e2); by intros [= _ <-]. }
    pose proof (create_child_keeps_nodes _ _ _ _ _ _ _ _ HN1 Ht HT1 E2 _ _ HN1) as HN2.
    destruct (create_child_spec n N t T1 R w1 HN1 Ht HT1)
      as [(w2' & T2 & Hok & Hstep2)|(w2' & Hraise & _)]; [|congruence].
    rewrite E2 in Hok. injection Hok as <-.
    pose proof (cs_tree _ _ _ _ _ _ Hstep2) as HT2.
    rewrite (bind_ok _ _ _ _ _ (get_node_ok _ _ _ HN2)), Ht, Hk. cbn [attr].
    erewrite bind_ok; [|reflexivity].
    rewrite (bind_ok _ _ _ _ _ (get_tree_ok _ _ _ HT2)).
    erewrite bind_ok; [|reflexivity].
    rewrite (bind_ok _ _ _ _ _ (native_call_run _ _)).
    unfold _check_call. destruct (ret _ =? 0).
    - erewrite bind_ok; [|reflexivity].
      by erewrite set_empty_False_ok by done.
    - erewrite bind_raise; [|reflexivity]. by intros [= _ <-]. }
  destruct Hrun as [(v & Hr)|[(fid & op & th & dl & L & R & Hr)
                             |(fid & cats & dl & L & R & Hr)]].
  - pose proof (convert_leaf_value_pure v w) as Hp.
    destruct (convert_leaf_value v w) as [[leaf|e0] w1] eqn:Ec;
      simpl in Hp; subst w1.
    + rewrite (Node_set_leaf_node_registered n N t T k v leaf w HN Ht Hk HT Ec)
        in Hr.
      destruct (ret _ =? 0); [done|]. by injection Hr as _ <-.
    + unfold Node_set_leaf_node in Hr.
      rewrite (bind_raise _ _ _ _ _ Ec) in Hr. by injection Hr as _ <-.
  - by eapply Htest.
  - by eapply Htest.
Qed.

(** X23: insertion does not check that the node is free.  A node that
    [T.set(k, node)] has put in a tree is still empty, so a second
    [T2.set(k2, node)], on any tree and any key that tree does not have,
    is accepted like the first when the library accepts it: the node then
    records the second key and the second tree, while the first tree
    still maps the first key to it. *)
Theorem X23_node_can_be_inserted_twice (self : loc) (key : Z) (n : loc)
    (self2 : loc) (T2 : Tree) (key2 : Z) (w w1 : World) :
  Tree_setitem self key (VNode n) w = (Ok tt, w1) ->
  tree_heap w1 !! self2 = Some T2 ->
  dict_contains key2 (nodes T2) = false ->
  ret (fst (_LIB (TreeliteTreeBuilderCreateNode (handle T2) (c_int key2))
                 (native w1))) = 0 ->
  exists w2 T',
    Tree_setitem self2 key2 (VNode n) w1 = (Ok tt, w2) /\
    node_heap w2 !! n = Some (mkNode true (Some key2) (Some self2)) /\
    tree_heap w2 !! self = Some T' /\
    dict_get key (nodes T') = Some n.
Proof.
  intros Hrun HT2 Hk2 Hret.
  destruct (Tree_setitem_ok_inv _ _ _ _ _ Hrun) as (T & N & HT & Hk & HN & He & Hw1).
  assert (Hs : (self < length (tree_heap w))%nat) by (eapply lookup_lt_Some; eauto).
  assert (Hn : (n < length (node_heap w))%nat) by (eapply lookup_lt_Some; eauto).
  assert (HN1 : node_heap w1 !! n = Some (mkNode true (Some key) (Some self))).
  { rewrite Hw1. cbn [node_heap]. by apply list_lookup_insert_eq. }
  assert (HT1 : tree_heap w1 !! self
                = Some (mkTree (handle T) (nodes T ++ [(key, n)]) (ensemble T))).
  { rewrite Hw1. cbn [tree_heap]. by apply list_lookup_insert_eq. }
  assert (Hs1 : (self < length (tree_heap w1))%nat) by (eapply lookup_lt_Some; eauto).
  assert (Hn1 : (n < length (node_heap w1))%nat) by (eapply lookup_lt_Some; eauto).
  rewrite (Tree_setitem_run _ _ _ _ _ _ HT2 Hk2 HN1 eq_refl), Hret. cbn [Z.eqb].
  destruct (decide (self2 = self)) as [->|Hne].
  - eexists _, _. split; [reflexivity|]. cbn [node_heap tree_heap].
    split; [by apply list_lookup_insert_eq|].
    split; [by apply list_lookup_insert_eq|]. cbn [nodes].
    assert (T2 = mkTree (handle T) (nodes T ++ [(key, n)]) (ensemble T))
      by congruence. subst T2. cbn [nodes].
    apply dict_get_app_old. by apply dict_get_app_new.
  - eexists _, _. split; [reflexivity|]. cbn [node_heap tree_heap].
    split; [by apply list_lookup_insert_eq|].
    split; [by rewrite list_lookup_insert_ne|]. cbn [nodes].
    by apply dict_get_app_new.
Qed.

End Properties.

(** * The theorems at work

    Each theorem above that has hypotheses is applied here to a store built
    by running the module, and each claim the code does not meet is shown
    to fail on such a store. *)

Lemma lenient_accepting : @accepting lenient.
Proof. intros c s. reflexivity. Qed.

(** C1 on the empty ensemble of [world2]: inserting tree 0 at position 0
    returns, and position -1 is refused. *)
Lemma C1_insert_witness :
  (exists w', @ModelBuilder_insert lenient 0%nat (VTree 0%nat) (VInt 0) world2
              = (Ok tt, w')) /\
  @ModelBuilder_insert lenient 0%nat (VTree 0%nat) (VInt (-1)) world2
  = (Raise (ValueError msg_index_bounds), world2).
Proof.
  split.
  - destruct (@C1_insert lenient 0%nat (mkModelBuilder (Some 1) []) 0%nat
                (mkTree (Some 2) [] None) 0 world2 eq_refl eq_refl)
      as [Hin _].
    destruct (Hin ltac:(simpl; lia)) as [_ Hreturns].
    apply Hreturns; [apply lenient_accepting | discriminate | reflexivity].
  - destruct (@C1_insert lenient 0%nat (mkModelBuilder (Some 1) []) 0%nat
                (mkTree (Some 2) [] None) (-1) world2 eq_refl eq_refl)
      as [_ Hout].
    apply Hout. left. lia.
Defined.

(** C2 on the tree of [world1], which has key 7 only: key 8 is created,
    key 7 is returned. *)
Lemma C2_getitem_witness :
  (exists n w', @Tree_getitem lenient 0%nat 8 world1 = (Ok n, w') /\
                @Tree_len lenient 0%nat w' = (Ok 2%nat, w')) /\
  @Tree_getitem lenient 0%nat 7 world1 = (Ok 0%nat, world1).
Proof.
  destruct (@C2_getitem lenient 0%nat (mkTree (Some 1) [(7, 0%nat)] None) 8
              world1 eq_refl) as (Hnew & _ & _).
  destruct (@C2_getitem lenient 0%nat (mkTree (Some 1) [(7, 0%nat)] None) 7
              world1 eq_refl) as (_ & Hold & _).
  split.
  - destruct (Hnew eq_refl eq_refl) as (n & w' & Hrun & _ & _ & _ & _ & Hlen).
    exists n, w'. split; [exact Hrun | exact Hlen].
  - exact (proj1 (Hold 0%nat eq_refl)).
Defined.

(** C3 on the tree of [world1]: key 7 is taken. *)
Lemma C3_setitem_witness :
  @Tree_setitem lenient 0%nat 7 (VNode 1%nat) world1
  = (Raise (KeyError_duplicate 7), world1).
Proof.
  destruct (@C3_setitem lenient 0%nat (mkTree (Some 1) [(7, 0%nat)] None) 7
              1%nat world1 eq_refl) as [Hdup _].
  exact (Hdup eq_refl).
Defined.

(** C10 on the tree of [world1]: an int is not a node, at a key the tree
    has. *)
Lemma C10_setitem_witness :
  @Tree_setitem lenient 0%nat 7 (VInt 1) world1
  = (Raise (ValueError msg_value_type), world1).
Proof.
  apply (@C10_setitem_rejects_non_node lenient 0%nat 7 (VInt 1) world1).
  intros n. discriminate.
Defined.



(** C5 on node 0 of [world1]: children 1 and 2 are created. *)
Lemma C5_numerical_test_witness :
  exists w' T',
    @Node_set_numerical_test_node lenient 0%nat 2 (py "<") half true 1 2 world1
    = (Ok tt, w') /\
    tree_heap w' !! 0%nat = Some T' /\
    dict_contains 1 (nodes T') = true /\ dict_contains 2 (nodes T') = true.
Proof.
  destruct (@C5_numerical_test_children lenient 0%nat
              (mkNode true (Some 7) (Some 0%nat)) 0%nat
              (mkTree (Some 1) [(7, 0%nat)] None) 7 2 (py "<") half true 1 2
              world1 eq_refl eq_refl eq_refl eq_refl) as [Hch Hreturns].
  destruct (Hreturns lenient_accepting) as [w' Hrun].
  destruct (Hch w' Hrun) as (T' & HT' & Hkeys).
  exists w', T'. split; [exact Hrun|]. split; [exact HT'|].
  split; [apply (Hkeys 1); by left | apply (Hkeys 2); by right].
Defined.

(** C6 on node 0 of [world1]: the string "12" becomes the leaf vector
    [1.0, 2.0]. *)
Lemma C6_set_leaf_node_witness :
  fst (@Node_set_leaf_node lenient 0%nat (VStr (py "12")) world1) = Ok tt /\
  fst (@Node_set_leaf_node lenient 0%nat (VStr (py "ab")) world1)
  = Raise (ValueError msg_float_str).
Proof.
  destruct (@C6_set_leaf_node_on_str lenient 0%nat
              (mkNode true (Some 7) (Some 0%nat)) 0%nat
              (mkTree (Some 1) [(7, 0%nat)] None) 7 world1
              eq_refl eq_refl eq_refl eq_refl) as [Hdigits Hletters].
  split.
  - rewrite (Hdigits (py "12")
               [binary_normalize 53 1024 1 0 false;
                binary_normalize 53 1024 2 0 false]).
    + reflexivity.
    + repeat constructor.
    + reflexivity.
  - exact (f_equal fst (Hletters 97%N (py "b") eq_refl)).
Defined.

(** C7 on the ensemble of [world2], with the parameter [global_bias=0.5]. *)
Lemma C7_parameters_witness :
  calls (snd (@ModelBuilder_set_param lenient 0%nat
                (PMapping [(VStr (py "global_bias"), VFloat half)]) None world2))
  = calls world2 ++
    [TreeliteModelBuilderSetModelParam (Some 1)
       (VStr (py "global_bias")) (VFloat half)] /\
  exists s,
    calls (snd (@Model_set_compiler_param lenient (Some 9)
                  (PMapping [(VStr (py "global_bias"), VFloat half)]) None world2))
    = calls world2 ++
      [TreeliteCompilerSetParam (Some 9) (VStr (py "global_bias")) (VStr s)].
Proof.
  destruct (@C7_builder_value_not_stringified lenient 0%nat
              (mkModelBuilder (Some 1) []) (Some 9)
              (VStr (py "global_bias")) (VFloat half) world2 eq_refl)
    as (vb & vc & Hb & Hc & -> & -> & _).
  - intros s. discriminate.
  - split; [exact Hb|]. eexists. exact Hc.
Defined.

(** C8 on the empty ensemble of [world2] after an insertion: position 0
    is removed, position 5 is out of range. *)
Lemma C8_delitem_witness :
  let w := snd (@ModelBuilder_insert lenient 0%nat (VTree 0%nat) (VInt 0) world2) in
  (exists w', @ModelBuilder_delitem lenient 0%nat 0 w = (Ok tt, w')) /\
  (exists w', @ModelBuilder_delitem lenient 0%nat 5 w = (Raise IndexError, w')).
Proof.
  intros w.
  assert (Htrees : forall (j t : nat),
            trees (mkModelBuilder (Some 1) [0%nat]) !! j = Some t ->
            is_Some (tree_heap w !! t)).
  { intros [|j] t; [|done]. intros [= <-]. by eexists. }
  destruct (@C8_delitem lenient 0%nat (mkModelBuilder (Some 1) [0%nat]) 0 w
              eq_refl Htrees) as (_ & _ & Hin).
  destruct (@C8_delitem lenient 0%nat (mkModelBuilder (Some 1) [0%nat]) 5 w
              eq_refl Htrees) as (_ & Hout & _).
  split.
  - destruct (Hin eq_refl ltac:(simpl; lia)) as (w' & B' & Hrun & _).
    by exists w'.
  - destruct (Hout eq_refl ltac:(simpl; lia)) as (w' & Hrun & _).
    by exists w'.
Defined.

(** The claim C8 fails on the empty ensemble of [world3], served by a
    library that checks positions: position 0 designates no tree, and the
    error is the library's, raised by [_check_call], not an
    index-out-of-range error. *)
Lemma C8_counterexample :
  builder_heap world3 !! 0%nat = Some (mkModelBuilder (Some 1) []) /\
  fst (@ModelBuilder_delitem checking 0%nat 0 world3) = Raise TreeliteError_native /\
  TreeliteError_native <> IndexError.
Proof. split; [reflexivity|]. split; [reflexivity|discriminate]. Qed.

(** C9 on the format "XGBoost" and on the format "csv". *)
Lemma C9_load_witness :
  fst (@Model_load lenient (py "model.bin") (py "XGBoost") world2)
  = Ok (mkModel (Some 3)) /\
  @Model_load lenient (py "model.bin") (py "csv") world2
  = (Raise (ValueError msg_unknown_format), world2).
Proof.
  destruct (@C9_load lenient (py "model.bin") (py "XGBoost") world2)
    as [Hyes _].
  destruct (@C9_load lenient (py "model.bin") (py "csv") world2)
    as [_ Hno].
  split.
  - rewrite Hyes.
    + reflexivity.
    + unfold is_ascii. repeat constructor.
    + left. reflexivity.
  - destruct Hno as (e & [->| ->] & Hrun).
    + right. intros [Hs|[Hs|Hs]]; discriminate.
    + exfalso. vm_compute in Hrun. discriminate.
    + exact Hrun.
Defined.

(** ** More of the module, at work *)


(** X2 on tree 0 of [world5], which the ensemble has removed. *)
Lemma X2_insert_needs_a_handle_witness :
  exists e w',
    @ModelBuilder_insert lenient 0%nat (VTree 0%nat) (VInt 0) world5
    = (Raise e, w') /\
    builder_heap w' = builder_heap world5.
Proof.
  exact (@X2_insert_needs_a_handle lenient 0%nat (mkModelBuilder (Some 1) [])
           0%nat (mkTree None [] (Some 0%nat)) (VInt 0) world5
           eq_refl eq_refl eq_refl).
Defined.

(** X3 on the same insertion. *)
Lemma X3_insert_then_getitem_witness :
  @ModelBuilder_getitem lenient 0%nat 0 world4 = (Ok 0%nat, world4).
Proof.
  exact (proj1 (@X3_insert_then_getitem lenient 0%nat
                  (mkModelBuilder (Some 1) []) 0%nat (mkTree (Some 2) [] None)
                  0 world2 world4 eq_refl eq_refl eq_refl)).
Defined.

(** X4 on the same insertion, followed by [del E[0]]. *)
Lemma X4_insert_then_delitem_witness :
  exists w'',
    @ModelBuilder_delitem lenient 0%nat 0 world4 = (Ok tt, w'') /\
    builder_heap w'' !! 0%nat = Some (mkModelBuilder (Some 1) []).
Proof.
  destruct (@X4_insert_then_delitem lenient 0%nat (mkModelBuilder (Some 1) [])
              0%nat (mkTree (Some 2) [] None) 0 world2 world4
              eq_refl eq_refl eq_refl eq_refl)
    as (w'' & Hrun & HB & _).
  exists w''. split; [exact Hrun | exact HB].
Defined.

(** X5 on the empty ensemble of [world2]. *)
Lemma X5_append_witness :
  exists w', @ModelBuilder_append lenient 0%nat (VTree 0%nat) world2 = (Ok tt, w').
Proof.
  destruct (@X5_append_puts_last lenient 0%nat (mkModelBuilder (Some 1) [])
              0%nat (mkTree (Some 2) [] None) world2 eq_refl eq_refl)
    as (_ & _ & Hreturns).
  apply Hreturns; [apply lenient_accepting | discriminate | reflexivity].
Defined.

(** X6 on the one-tree ensemble of [world4], with index -1. *)
Lemma X6_delitem_from_the_end_witness :
  exists w', @ModelBuilder_delitem lenient 0%nat (-1) world4 = (Ok tt, w').
Proof.
  assert (Htrees : forall (j t : nat),
            trees (mkModelBuilder (Some 1) [0%nat]) !! j = Some t ->
            is_Some (tree_heap world4 !! t)).
  { intros [|j] t; [|done]. intros [= <-]. by eexists. }
  destruct (@X6_delitem_from_the_end lenient 0%nat
              (mkModelBuilder (Some 1) [0%nat]) (-1) world4 eq_refl Htrees
              ltac:(simpl; lia) eq_refl)
    as (w' & B' & t & T & Hrun & _).
  exists w'. exact Hrun.
Defined.

(** X7 on the tree of [world1]: key 7 is deleted, key 8 is missing. *)
Lemma X7_tree_delitem_witness :
  (exists w', @Tree_delitem lenient 0%nat 7 world1 = (Ok tt, w') /\
              calls w' = calls world1) /\
  @Tree_delitem lenient 0%nat 8 world1 = (Raise (KeyError 8), world1).
Proof.
  destruct (@X7_tree_delitem_is_local lenient 0%nat
              (mkTree (Some 1) [(7, 0%nat)] None) 7 world1 eq_refl)
    as [Hhas _].
  destruct (@X7_tree_delitem_is_local lenient 0%nat
              (mkTree (Some 1) [(7, 0%nat)] None) 8 world1 eq_refl)
    as [_ Hmissing].
  split.
  - destruct (Hhas 0%nat eq_refl) as (w' & T' & Hrun & _ & _ & _ & _ & _ & _ & Hc).
    exists w'. split; [exact Hrun | exact Hc].
  - exact (Hmissing eq_refl).
Defined.

(** X8 on the tree of [world1]: key 7 is deleted and looked up again. *)
Lemma X8_delitem_then_getitem_witness :
  let w1 := snd (@Tree_delitem lenient 0%nat 7 world1) in
  exists n' w2,
    @Tree_getitem lenient 0%nat 7 w1 = (Ok n', w2) /\ n' <> 0%nat.
Proof.
  intros w1.
  assert (Hnd : NoDup (dict_keys (nodes (mkTree (Some 1) [(7, 0%nat)] None)))).
  { repeat constructor. intros Hin. inversion Hin. }
  destruct (@X8_delitem_then_getitem lenient 0%nat
              (mkTree (Some 1) [(7, 0%nat)] None) 7 0%nat
              (mkNode true (Some 7) (Some 0%nat)) world1 w1
              eq_refl Hnd eq_refl eq_refl eq_refl)
    as [_ Hnew].
  destruct (Hnew eq_refl) as (n' & w2 & Hrun & Hne & _).
  exists n', w2. split; [exact Hrun | exact Hne].
Defined.

(** X9 on the tree of [world1], with the missing key 8. *)
Lemma X9_getitem_is_stable_witness :
  let w' := snd (@Tree_getitem lenient 0%nat 8 world1) in
  @Tree_getitem lenient 0%nat 8 w' = (Ok 2%nat, w').
Proof.
  intros w'.
  exact (@X9_getitem_is_stable lenient 0%nat 8 2%nat world1 w' eq_refl).
Defined.

(** X10 on the tree of [world1] and the free node 1. *)
Lemma X10_setitem_then_getitem_witness :
  let w' := snd (@Tree_setitem lenient 0%nat 8 (VNode 1%nat) world1) in
  @Tree_getitem lenient 0%nat 8 w' = (Ok 1%nat, w').
Proof.
  intros w'.
  exact (proj2 (@X10_setitem_then_getitem lenient 0%nat 8 1%nat world1 w'
                  eq_refl)).
Defined.

(** X11 on the tree of [world1]: key 8 comes after key 7. *)
Lemma X11_created_key_goes_last_witness :
  exists n w',
    @Tree_getitem lenient 0%nat 8 world1 = (Ok n, w') /\
    @Tree_keys lenient 0%nat w' = (Ok [7; 8], w').
Proof.
  destruct (@X11_created_key_goes_last lenient 0%nat
              (mkTree (Some 1) [(7, 0%nat)] None) 8 world1
              eq_refl eq_refl eq_refl)
    as (n & w' & Hrun & _ & Hkeys & _).
  exists n, w'. split; [exact Hrun | exact Hkeys].
Defined.

(** X12 on node 0 of [world1]: children 1 and 2 are created. *)
Lemma X12_categorical_test_witness :
  exists w' T',
    @Node_set_categorical_test_node lenient 0%nat 2 [1; 3] true 1 2 world1
    = (Ok tt, w') /\
    tree_heap w' !! 0%nat = Some T' /\
    dict_contains 1 (nodes T') = true /\ dict_contains 2 (nodes T') = true.
Proof.
  destruct (@X12_categorical_test_children lenient 0%nat
              (mkNode true (Some 7) (Some 0%nat)) 0%nat
              (mkTree (Some 1) [(7, 0%nat)] None) 7 2 [1; 3] true 1 2
              world1 eq_refl eq_refl eq_refl eq_refl) as [Hch Hreturns].
  destruct (Hreturns lenient_accepting) as [w' Hrun].
  destruct (Hch w' Hrun) as (T' & HT' & Hkeys).
  exists w', T'. split; [exact Hrun|]. split; [exact HT'|].
  split; [apply (Hkeys 1); by left | apply (Hkeys 2); by right].
Defined.


(** X14 on node 0 of [world1], once it is a leaf. *)
Lemma X14_configured_node_witness :
  let w' := snd (@Node_set_leaf_node lenient 0%nat (VFloat half) world1) in
  @Tree_setitem lenient 0%nat 9 (VNode 0%nat) w'
  = (Raise (ValueError msg_nonempty), w').
Proof.
  intros w'.
  destruct (@X14_configured_node_is_refused lenient 0%nat
              (mkNode true (Some 7) (Some 0%nat)) 0%nat
              (mkTree (Some 1) [(7, 0%nat)] None) 7 world1 w'
              eq_refl eq_refl eq_refl eq_refl)
    as [_ Hrefused].
  - left. exists (VFloat half). reflexivity.
  - exact (Hrefused 0%nat (mkTree (Some 1) [(7, 0%nat)] None) 9
             eq_refl eq_refl).
Defined.

(** X15 on node 0 of [world1]. *)
Lemma X15_set_root_witness :
  node_heap (snd (@Node_set_root lenient 0%nat world1)) = node_heap world1 /\
  fst (@Node_set_root lenient 0%nat world1) = Ok tt.
Proof.
  destruct (@X15_set_root_changes_no_object lenient 0%nat world1)
    as (Hsame & Hreg & _).
  split.
  - exact (proj1 (Hsame _ _ eq_refl)).
  - apply (Hreg (mkNode true (Some 7) (Some 0%nat)) 0%nat
                (mkTree (Some 1) [(7, 0%nat)] None) 7
                eq_refl eq_refl eq_refl eq_refl).
    reflexivity.
Defined.

(** X17 on the formats "XGBoost" and "xgBOOST". *)
Lemma X17_load_ignores_case_witness :
  @Model_load lenient (py "model.bin") (py "XGBoost") world2
  = @Model_load lenient (py "model.bin") (py "xgBOOST") world2.
Proof.
  destruct (@X17_load_ignores_case lenient (py "model.bin") (py "XGBoost")
              (py "xgBOOST") world2) as [_ Hsame].
  - unfold is_ascii. repeat constructor.
  - apply Hsame; [unfold is_ascii; repeat constructor | reflexivity].
Defined.




(** X21 on the one-tree ensemble of [world4]. *)
Lemma X21_ensemble_reads_witness :
  @ModelBuilder_getitem lenient 0%nat (-1) world4 = (Ok 0%nat, world4) /\
  @ModelBuilder_getitem lenient 0%nat 1 world4 = (Raise IndexError, world4).
Proof.
  destruct (@X21_ensemble_reads_as_a_list lenient 0%nat
              (mkModelBuilder (Some 1) [0%nat]) world4 eq_refl)
    as (_ & _ & Hget & _ & Hout).
  split.
  - exact (proj2 (Hget 0%nat 0%nat eq_refl)).
  - apply Hout. right. simpl. lia.
Defined.

(** X22 on node 0 of [world1] and a leaf value that is refused. *)
Lemma X22_failed_mutator_witness :
  node_heap (snd (@Node_set_leaf_node lenient 0%nat VNone world1)) !! 0%nat
  = Some (mkNode true (Some 7) (Some 0%nat)).
Proof.
  apply (@X22_failed_mutator_leaves_node lenient 0%nat
           (mkNode true (Some 7) (Some 0%nat)) 0%nat
           (mkTree (Some 1) [(7, 0%nat)] None) 7 world1 _
           (TreeliteError msg_leaf_type) eq_refl eq_refl eq_refl eq_refl).
  left. exists VNone. reflexivity.
Defined.

(** X23 on the free node 1 of [world1], stored at key 8 and then at key 9. *)
Lemma X23_node_inserted_twice_witness :
  let w1 := snd (@Tree_setitem lenient 0%nat 8 (VNode 1%nat) world1) in
  exists w2,
    @Tree_setitem lenient 0%nat 9 (VNode 1%nat) w1 = (Ok tt, w2) /\
    node_heap w2 !! 1%nat = Some (mkNode true (Some 9) (Some 0%nat)).
Proof.
  intros w1.
  destruct (@X23_node_can_be_inserted_twice lenient 0%nat 8 1%nat 0%nat
              (mkTree (Some 1) [(7, 0%nat); (8, 1%nat)] None) 9 world1 w1
              eq_refl eq_refl eq_refl eq_refl)
    as (w2 & T' & Hrun & Hnode & _).
  exists w2. split; [exact Hrun | exact Hnode].
Defined.
